(** * Attendance backend: QR freshness, lockout, attendance recording, reporting

  A shallow embedding of the rule checks of the attendance-management
  backend (services/qrService.js, services/authService.js, routes/auth.js,
  controllers/attendanceController.js and the Mongoose schemas under
  models/), followed by the properties stated about them.

  Conventions.
  - Instants are integer milliseconds ([Z]), as produced by [Date.now()];
    a handler is served at one instant.  Calendar fields are read on the
    server's local time line, taken with a fixed offset (a translation of
    the line, left out).
  - Arithmetic on Numbers is binary64: an operation returns its exact
    result, a rational, rounded to the nearest representable value
    ([Js.roundToDouble]).
  - Identifiers ([_id], [groupId], ...) are the hexadecimal strings of the
    ObjectIds.
  - An [async] handler becomes a function from the store (and the clock
    reading) to the new store and the HTTP response. *)

From Stdlib Require Import ZArith QArith Qround Qpower Qabs Lia Lqa.
From stdpp Require Import base strings list gmap.

Local Open Scope Z_scope.
Local Open Scope string_scope.

(** ** JavaScript values and the coercions the code relies on *)

Module Js.

(** Outcome of a call that may [throw]. *)
Inductive Outcome (A : Type) : Type :=
| Return (a : A)
| Throw (msg : string).
Global Arguments Return {A} a.
Global Arguments Throw {A} msg.

(** *** Numbers *)

(** A Number: [NaN], a finite value (the rational it denotes) or an
    infinity.  The sign of a zero is not tracked: only a division by zero
    tells [-0] from [0], and the code modelled here divides under a guard. *)
Inductive JsNum : Type :=
| NaN
| Num (q : Q)
| Inf (negative : bool).

(** [x < y] on rationals, as a boolean. *)
Definition Qltb (x y : Q) : bool :=
  bool_decide (Qnum x * QDen y < Qnum y * QDen x).

Definition pow2 (k : Z) : Q := (2 ^ k)%Q.

(** The [e] with [2^e <= x < 2^(e+1)], for [x > 0]. *)
Definition exponentOf (x : Q) : Z :=
  let e0 := Z.log2 (Qnum x) - Z.log2 (Zpos (Qden x)) in
  if Qltb x (pow2 e0) then e0 - 1 else e0.

(** Exponent of the unit in the last place of the binary64 values around
    [x > 0]: 53 bits of significand, the subnormals from [2^-1074]. *)
Definition binadeOf (x : Q) : Z := Z.max (exponentOf x - 52) (-1074).

(** The integer nearest to [y], the even one on a tie. *)
Definition roundHalfEven (y : Q) : Z :=
  let f := Qnum y / Zpos (Qden y) in
  match 2 * (Qnum y mod Zpos (Qden y)) ?= Zpos (Qden y) with
  | Lt => f
  | Gt => f + 1
  | Eq => if Z.even f then f else f + 1
  end.

(** Round-to-nearest, ties-to-even, of a positive real to binary64, with
    overflow to [Infinity]. *)
Definition roundPositive (x : Q) : JsNum :=
  let v := (inject_Z (roundHalfEven (x / pow2 (binadeOf x))) * pow2 (binadeOf x))%Q in
  if Qltb v (pow2 1024) then Num (Qred v) else Inf false.

Definition neg (a : JsNum) : JsNum :=
  match a with
  | NaN => NaN
  | Num q => Num (- q)
  | Inf s => Inf (negb s)
  end.

(** The Number value for a real: an arithmetic operation on finite
    operands returns its exact result rounded this way. *)
Definition roundToDouble (x : Q) : JsNum :=
  match (x ?= 0)%Q with
  | Eq => Num 0
  | Gt => roundPositive x
  | Lt => neg (roundPositive (- x))
  end.

Definition isZero (x : Q) : bool := bool_decide (Qnum x = 0).

(** [a - b] *)
Definition sub (a b : JsNum) : JsNum :=
  match a, b with
  | Num x, Num y => roundToDouble (x - y)
  | NaN, _ | _, NaN => NaN
  | Inf s, Inf s' => if Bool.eqb s s' then NaN else Inf s
  | Inf s, Num _ => Inf s
  | Num _, Inf s => Inf (negb s)
  end.

(** [a * b] *)
Definition mul (a b : JsNum) : JsNum :=
  match a, b with
  | Num x, Num y => roundToDouble (x * y)
  | NaN, _ | _, NaN => NaN
  | Inf s, Inf s' => Inf (xorb s s')
  | Inf s, Num y | Num y, Inf s =>
      if isZero y then NaN else Inf (xorb s (Qltb y 0))
  end.

(** [a / b]; a zero divisor is taken as [+0]. *)
Definition div (a b : JsNum) : JsNum :=
  match a, b with
  | Num x, Num y =>
      if isZero y then (if isZero x then NaN else Inf (Qltb x 0))
      else roundToDouble (x / y)
  | NaN, _ | _, NaN => NaN
  | Inf _, Inf _ => NaN
  | Inf s, Num y => Inf (xorb s (Qltb y 0))
  | Num _, Inf _ => Num 0
  end.

(** [a > b]: any comparison with [NaN] is [false]. *)
Definition gt (a b : JsNum) : bool :=
  match a, b with
  | Num x, Num y => Qltb y x
  | Inf false, Num _ | Inf false, Inf true | Num _, Inf true => true
  | _, _ => false
  end.

(** [Math.round(a)]: the integer nearest to [a], the larger one on a tie
    (an integer of a binary64 value is a binary64 value). *)
Definition Math_round (a : JsNum) : JsNum :=
  match a with
  | Num x => Num (inject_Z (Qfloor (x + (1 # 2))))
  | _ => a
  end.

(** *** Strings *)

(** A String: its UTF-16 code units. *)
Definition JsString : Type := list Z.

Definition units (s : string) : JsString :=
  map (fun c => Z.of_nat (Stdlib.Strings.Ascii.nat_of_ascii c))
      (Stdlib.Strings.String.list_ascii_of_string s).

(** [StrWhiteSpaceChar]: TAB, LF, VT, FF, CR, the space separators, the
    line and paragraph separators and the byte order mark. *)
Definition isWhiteSpace (c : Z) : bool :=
  bool_decide (c ∈ [9; 10; 11; 12; 13; 32; 160; 5760; 8232; 8233; 8239; 8287; 12288; 65279])
  || bool_decide (8192 <= c <= 8202).

Fixpoint dropWhile (p : Z -> bool) (l : JsString) : JsString :=
  match l with
  | c :: r => if p c then dropWhile p r else l
  | [] => []
  end.

Definition trim (l : JsString) : JsString :=
  rev (dropWhile isWhiteSpace (rev (dropWhile isWhiteSpace l))).

(** The longest prefix of digits, and the rest. *)
Fixpoint span (p : Z -> bool) (l : JsString) : JsString * JsString :=
  match l with
  | c :: r => if p c then let '(a, b) := span p r in (c :: a, b) else ([], l)
  | [] => ([], [])
  end.

Definition decimalDigit (c : Z) : option Z :=
  if bool_decide (48 <= c <= 57) then Some (c - 48) else None.

Definition hexDigit (c : Z) : option Z :=
  if bool_decide (48 <= c <= 57) then Some (c - 48)
  else if bool_decide (65 <= c <= 70) then Some (c - 55)
  else if bool_decide (97 <= c <= 102) then Some (c - 87)
  else None.

Definition octalDigit (c : Z) : option Z :=
  if bool_decide (48 <= c <= 55) then Some (c - 48) else None.

Definition binaryDigit (c : Z) : option Z :=
  if bool_decide (48 <= c <= 49) then Some (c - 48) else None.

(** The value of a string of digits; [None] when a character is not a
    digit. *)
Fixpoint digitsFrom (base : Z) (digit : Z -> option Z) (acc : Z) (l : JsString)
  : option Z :=
  match l with
  | [] => Some acc
  | c :: r =>
      match digit c with
      | Some d => digitsFrom base digit (acc * base + d) r
      | None => None
      end
  end.

(** One digit at least. *)
Definition digits (base : Z) (digit : Z -> option Z) (l : JsString) : option Z :=
  match l with
  | [] => None
  | _ => digitsFrom base digit 0 l
  end.

(** [ExponentPart], or nothing: the exponent. *)
Definition exponentPart (l : JsString) : option Z :=
  match l with
  | [] => Some 0
  | c :: r =>
      if bool_decide (c = 101 \/ c = 69) then        (* e, E *)
        match r with
        | 43 :: r' => digits 10 decimalDigit r'        (* + *)
        | 45 :: r' => Z.opp <$> digits 10 decimalDigit r'   (* - *)
        | _ => digits 10 decimalDigit r
        end
      else None
  end.

(** The mathematical value of a [StrUnsignedDecimalLiteral] other than
    [Infinity]: digits, a point and digits, an exponent, with a digit on
    one side of the point at least. *)
Definition unsignedDecimal (l : JsString) : option Q :=
  let '(intPart, r1) := span (fun c => bool_decide (48 <= c <= 57)) l in
  let '(fracPart, r2) :=
    match r1 with
    | 46 :: r => span (fun c => bool_decide (48 <= c <= 57)) r    (* . *)
    | _ => ([], r1)
    end in
  match digits 10 decimalDigit (intPart ++ fracPart)%list, exponentPart r2 with
  | Some m, Some e => Some (inject_Z m * Qpower 10 (e - Z.of_nat (length fracPart)))%Q
  | _, _ => None
  end.

Definition strDecimalLiteral (l : JsString) : JsNum :=
  let '(negative, body) :=
    match l with
    | 43 :: r => (false, r)
    | 45 :: r => (true, r)
    | _ => (false, l)
    end in
  if bool_decide (body = units "Infinity") then Inf negative
  else match unsignedDecimal body with
       | Some mv => roundToDouble (if negative then - mv else mv)
       | None => NaN
       end.

(** [StringToNumber]: white space is trimmed, the empty string is 0, the
    text must be a [StrNumericLiteral] as a whole, and its value is
    rounded to binary64 (the nearest value, as V8 computes it, also for a
    literal of more than 20 significant digits, where the language leaves
    the last bit to the implementation). *)
Definition StringToNumber (s : JsString) : JsNum :=
  match trim s with
  | [] => Num 0
  | 48 :: c :: r =>
      let nonDecimal (v : option Z) :=
        match v with
        | Some n => roundToDouble (inject_Z n)
        | None => NaN
        end in
      if bool_decide (c = 120 \/ c = 88) then nonDecimal (digits 16 hexDigit r)
      else if bool_decide (c = 111 \/ c = 79) then nonDecimal (digits 8 octalDigit r)
      else if bool_decide (c = 98 \/ c = 66) then nonDecimal (digits 2 binaryDigit r)
      else strDecimalLiteral (trim s)
  | l => strDecimalLiteral l
  end.

(** *** Values *)

(** What [JSON.parse] yields for a property, or [undefined] for a missing
    one.  A number is the binary64 value of its literal: [JNumber] when
    that is an integer, [JFraction] otherwise, [JInfinity] for a literal
    beyond the binary64 range; of an object only the names of its
    properties are kept. *)
#[warnings="-register-all"]
Inductive JsVal : Type :=
| JUndefined
| JNull
| JBool (b : bool)
| JNumber (n : Z)
| JFraction (q : Q)
| JInfinity (negative : bool)
| JString (s : JsString)
| JArray (elements : list JsVal)
| JObject (keys : list JsString).

Definition cannotConvert : string := "Cannot convert object to primitive value".

(** [ToPrimitive] of an object fails when neither [valueOf] nor
    [toString] gives a primitive.  A property [toString] of a parsed
    object is never a function and hides [Object.prototype.toString],
    while the inherited [valueOf] returns the object itself; the elements
    of an array are converted by [join]. *)
Fixpoint toPrimitiveThrows (v : JsVal) : bool :=
  match v with
  | JObject keys => bool_decide (units "toString" ∈ keys)
  | JArray elements => existsb toPrimitiveThrows elements
  | _ => false
  end.

(** ECMAScript [ToNumber] (through [ToPrimitive] with hint number).  An
    object without a [toString] of its own converts to
    ["[object Object]"], not a numeric literal.  An array converts to the
    [join] of its elements: the empty string for none, the string of the
    element for one ([null] giving the empty string, a number its own
    text, which reads back as that number), and a text with a comma, not a
    numeric literal, for more.  The stack that [join] needs for arrays
    nested thousands of levels deep is taken to be available. *)
Fixpoint ToNumber (v : JsVal) : Outcome JsNum :=
  match v with
  | JUndefined => Return NaN
  | JNull => Return (Num 0)
  | JBool true => Return (Num 1)
  | JBool false => Return (Num 0)
  | JNumber n => Return (Num (inject_Z n))
  | JFraction q => Return (Num q)
  | JInfinity s => Return (Inf s)
  | JString s => Return (StringToNumber s)
  | JObject keys =>
      if toPrimitiveThrows v then Throw cannotConvert else Return NaN
  | JArray [] => Return (Num 0)
  | JArray [element] =>
      match element with
      | JUndefined | JNull => Return (Num 0)
      | JBool _ => Return NaN
      | JNumber _ | JFraction _ | JInfinity _ | JString _ | JObject _ | JArray _ =>
          ToNumber element
      end
  | JArray elements =>
      if existsb toPrimitiveThrows elements then Throw cannotConvert else Return NaN
  end.

(** [typeof v === 'number'] *)
Definition is_number (v : JsVal) : bool :=
  match v with JNumber _ | JFraction _ | JInfinity _ => true | _ => false end.

(** [!v] for a property holding a number or [undefined]. *)
Definition falsy (v : option Z) : bool :=
  match v with
  | None => true
  | Some n => bool_decide (n = 0)
  end.

End Js.

(** ** services/qrService.js *)

Module QRService.
Import Js.

(** The object [JSON.parse] yields for a QR payload; only the properties
    the server reads are kept. *)
Record Payload : Type := mkPayload {
  type : option string;          (* [undefined] when absent or not a string *)
  studentId : option string;
  generatedAt : JsVal;
}.

(** A non-empty [qrData] string, by what [JSON.parse] makes of it. *)
Inductive QRText : Type :=
| Garbage (syntaxError : string)   (* [JSON.parse] throws *)
| Json (p : Payload).

Definition parseQRData (qrData : QRText) : Outcome Payload :=
  match qrData with
  | Garbage e => Throw ("Invalid QR code data: " ++ e)
  | Json parsedData =>
      if bool_decide (type parsedData ≠ Some "student_attendance")
      then Throw ("Invalid QR code data: " ++ "Invalid QR code type")
      else Return parsedData
  end.

Definition maxAge : Z := 365 * 24 * 60 * 60 * 1000.

(** [currentTime - parsedData.generatedAt] converts [generatedAt] first;
    a [TypeError] of the conversion leaves the function as it is. *)
Definition validateQRCode (currentTime : Z) (parsedData : Payload) : Outcome bool :=
  match ToNumber (generatedAt parsedData) with
  | Throw typeError => Throw typeError
  | Return generated =>
      let qrAge := sub (Num (inject_Z currentTime)) generated in
      if gt qrAge (Num (inject_Z maxAge))
      then Throw "QR code has expired"
      else Return true
  end.

End QRService.

(** ** Accounts as the login flow sees them *)

Module Account.

Inductive Role : Type := student | doctor | admin | super_admin.

Global Instance Role_eq_dec : EqDecision Role.
Proof. solve_decision. Defined.

(** A user document, stored or as the object built from it.
    [loginAttempts], [lockUntil] and [lastLoginAt] are the properties
    authService.js reads and assigns; [None] is [undefined]. *)
Record User : Type := mkUser {
  _id : string;
  email : string;
  password : string;             (* bcrypt hash *)
  role : Role;
  isActive : bool;
  loginAttempts : option Z;
  lockUntil : option Z;
  lastLoginAt : option Z;
}.

End Account.

(** ** Mongoose models: a schema and a collection *)

Module Mongoose.
Import Account.

(** A compiled model: the paths its schema declares and the stored
    documents. *)
Record Model : Type := mkModel {
  paths : list string;
  docs : list User;
}.

Definition declared (m : Model) (path : string) : bool :=
  bool_decide (path ∈ paths m).

(** The document object built from a stored document.  With the default
    [strict] option only the paths the schema declares are properties of
    it: a field the schema does not declare reads as [undefined], whatever
    the stored document holds. *)
Definition strict (m : Model) (u : User) : User :=
  {| _id := _id u; email := email u; password := password u;
     role := role u; isActive := isActive u;
     loginAttempts := if declared m "loginAttempts" then loginAttempts u else None;
     lockUntil := if declared m "lockUntil" then lockUntil u else None;
     lastLoginAt := if declared m "lastLoginAt" then lastLoginAt u else None |}.

Definition findById (m : Model) (id : string) : option User :=
  strict m <$> List.find (fun u => bool_decide (_id u = id)) (docs m).

Definition findOne_email (m : Model) (e : string) : option User :=
  strict m <$> List.find (fun u => bool_decide (email u = e)) (docs m).

(** What [save()] makes of the stored document [d]: the declared paths
    take the values of the document object [u]; a property assigned on [u]
    that the schema does not declare is not persisted, and the stored
    field, if any, stays. *)
Definition persist (m : Model) (u d : User) : User :=
  {| _id := _id u; email := email u; password := password u;
     role := role u; isActive := isActive u;
     loginAttempts := if declared m "loginAttempts" then loginAttempts u
                      else loginAttempts d;
     lockUntil := if declared m "lockUntil" then lockUntil u else lockUntil d;
     lastLoginAt := if declared m "lastLoginAt" then lastLoginAt u else lastLoginAt d |}.

(** [user.save()] on a document loaded from [m]. *)
Definition save (m : Model) (u : User) : Model :=
  {| paths := paths m;
     docs := List.map (fun d => if bool_decide (_id d = _id u) then persist m u d else d)
                      (docs m) |}.

(** models/Student.js, models/Doctor.js, models/Admin.js: the declared
    paths ([timestamps: true] adds the last two). *)
Definition studentSchema : list string :=
  ["name"; "email"; "password"; "studentNumber"; "year"; "department";
   "group"; "profile"; "qrCode"; "role"; "isActive";
   "createdAt"; "updatedAt"].

Definition doctorSchema : list string :=
  ["name"; "email"; "password"; "department"; "assignedGroups"; "profile";
   "role"; "isActive"; "createdAt"; "updatedAt"].

Definition adminSchema : list string :=
  ["name"; "email"; "password"; "profile"; "role"; "permissions";
   "isActive"; "createdAt"; "updatedAt"].

End Mongoose.

(** ** services/authService.js *)

Module AuthService.
Import Js Account Mongoose.

Definition isAccountLocked (now : Z) (user : User) : bool :=
  if falsy (loginAttempts user) || falsy (lockUntil user) then false
  else
    match loginAttempts user, lockUntil user with
    | Some a, Some l => bool_decide (5 <= a) && bool_decide (now < l)
    | _, _ => false
    end.

Definition handleFailedLogin (now : Z) (userModel : Model) (userId : string) : Model :=
  match findById userModel userId with
  | None => userModel
  | Some user =>
      let attempts0 := if falsy (loginAttempts user) then 0
                       else default 0 (loginAttempts user) in
      let attempts := attempts0 + 1 in
      let lock := if bool_decide (5 <= attempts)
                  then Some (now + 30 * 60 * 1000)
                  else lockUntil user in
      save userModel
        {| _id := _id user; email := email user; password := password user;
           role := role user; isActive := isActive user;
           loginAttempts := Some attempts;
           lockUntil := lock;
           lastLoginAt := lastLoginAt user |}
  end.

Definition handleSuccessfulLogin (now : Z) (userModel : Model) (userId : string) : Model :=
  match findById userModel userId with
  | None => userModel
  | Some user =>
      save userModel
        {| _id := _id user; email := email user; password := password user;
           role := role user; isActive := isActive user;
           loginAttempts := Some 0;
           lockUntil := None;
           lastLoginAt := Some now |}
  end.

End AuthService.

(** ** HTTP responses: [res.status(code).json({ message })] *)

Module Http.

Record Response : Type := mkResponse {
  status : Z;
  message : string;
}.

End Http.

(** ** routes/auth.js: POST /login *)

Module AuthRoutes.
Import Js Account Mongoose AuthService Http.

(** The three account collections. *)
Record Models : Type := mkModels {
  Student : Model;
  Doctor : Model;
  Admin : Model;
}.

Inductive ModelName : Type := StudentModel | DoctorModel | AdminModel.

Definition getModel (db : Models) (k : ModelName) : Model :=
  match k with
  | StudentModel => Student db
  | DoctorModel => Doctor db
  | AdminModel => Admin db
  end.

Definition setModel (db : Models) (k : ModelName) (m : Model) : Models :=
  match k with
  | StudentModel => {| Student := m; Doctor := Doctor db; Admin := Admin db |}
  | DoctorModel => {| Student := Student db; Doctor := m; Admin := Admin db |}
  | AdminModel => {| Student := Student db; Doctor := Doctor db; Admin := m |}
  end.

(** "Find user in all collections": Student, then Doctor, then Admin. *)
Definition findUser (db : Models) (e : string) : option (User * ModelName) :=
  match findOne_email (Student db) e with
  | Some user => Some (user, StudentModel)
  | None =>
      match findOne_email (Doctor db) e with
      | Some user => Some (user, DoctorModel)
      | None =>
          match findOne_email (Admin db) e with
          | Some user => Some (user, AdminModel)
          | None => None
          end
      end
  end.

Section Login.

(** [bcrypt.compare(candidate, hash)] *)
Variable bcrypt_compare : string -> string -> bool.

Definition comparePassword (user : User) (candidatePassword : string) : bool :=
  bcrypt_compare candidatePassword (password user).

(** The handler of [POST /login], served at instant [now], for a body that
    passed [loginValidation]. *)
Definition login (now : Z) (db : Models) (e pw : string) : Models * Response :=
  match findUser db e with
  | None => (db, mkResponse 401 "Invalid email or password")
  | Some (user, userModel) =>
      if isAccountLocked now user then
        (db, mkResponse 423
               "Account is temporarily locked due to multiple failed login attempts")
      else if negb (isActive user) then
        (db, mkResponse 401 "Account is deactivated")
      else if negb (comparePassword user pw) then
        (setModel db userModel (handleFailedLogin now (getModel db userModel) (_id user)),
         mkResponse 401 "Invalid email or password")
      else
        (setModel db userModel (handleSuccessfulLogin now (getModel db userModel) (_id user)),
         mkResponse 200 "Authentication successful")
  end.

(** A sequence of login calls [(now, email, password)], oldest first; the
    responses are returned in the same order. *)
Fixpoint logins (db : Models) (calls : list (Z * string * string))
  : Models * list Response :=
  match calls with
  | [] => (db, [])
  | (now, e, pw) :: rest =>
      let '(db1, r) := login now db e pw in
      let '(db2, rs) := logins db1 rest in
      (db2, r :: rs)
  end.

End Login.

End AuthRoutes.

(** ** models/Attendance.js and the collections the recorder consults *)

Module Attendance.

Inductive Status : Type := present | absent | late | excused.

Global Instance Status_eq_dec : EqDecision Status.
Proof. solve_decision. Defined.

Inductive RecordedBy : Type := qr_scan | manual | admin.

Global Instance RecordedBy_eq_dec : EqDecision RecordedBy.
Proof. solve_decision. Defined.

Record AttendanceDoc : Type := mkAttendance {
  student : string;
  group : string;
  doctor : string;
  lectureDate : Z;
  status : Status;
  recordedBy : RecordedBy;
}.

Record StudentDoc : Type := mkStudent {
  s_group : string;
  s_isActive : bool;
}.

Record DoctorDoc : Type := mkDoctor {
  assignedGroups : list string;
}.

(** The database: students and doctors by [_id], the ids of the existing
    groups, and the attendance collection in insertion order. *)
Record Store : Type := mkStore {
  students : gmap string StudentDoc;
  doctors : gmap string DoctorDoc;
  groups : gset string;
  attendance : list AttendanceDoc;
}.

(** The [status] handed to [new Attendance({...})] when the body was not
    validated: a member of the enum, nothing, or some other string. *)
Inductive StatusField : Type :=
| Given (s : Status)
| Missing
| NotInEnum (v : string).

(** [partialFilterExpression: { status: { $ne: 'absent' } }] *)
Definition indexed (r : AttendanceDoc) : bool :=
  bool_decide (status r ≠ absent).

(** Key of the compound index [{ student: 1, group: 1, lectureDate: 1 }]. *)
Definition sameKey (r1 r2 : AttendanceDoc) : bool :=
  bool_decide (student r1 = student r2)
  && bool_decide (group r1 = group r2)
  && bool_decide (lectureDate r1 = lectureDate r2).

(** The unique partial index, as declared in models/Attendance.js and
    enforced by the database once built, rejects [r]. *)
Definition violatesIndex (coll : list AttendanceDoc) (r : AttendanceDoc) : bool :=
  indexed r && existsb (fun r' => indexed r' && sameKey r' r) coll.

(** [new Attendance({...}).save()]: enum validation with the default
    ['present'], then the insert under the unique index.  The error texts
    of the library are abbreviated. *)
Definition save (db : Store) (st gr dr : string) (date : Z) (sf : StatusField)
    (by_ : RecordedBy) : Js.Outcome (Store * AttendanceDoc) :=
  match sf with
  | NotInEnum v =>
      Js.Throw ("Attendance validation failed: status: `" ++ v
                ++ "` is not a valid enum value for path `status`.")
  | _ =>
      let r := {| student := st; group := gr; doctor := dr; lectureDate := date;
                  status := match sf with Given s => s | _ => present end;
                  recordedBy := by_ |} in
      if violatesIndex (attendance db) r
      then Js.Throw "E11000 duplicate key error"
      else Js.Return ({| students := students db; doctors := doctors db;
                         groups := groups db;
                         attendance := attendance db ++ [r] |}, r)
  end.

Definition msPerDay : Z := 24 * 60 * 60 * 1000.

(** [new Date(d.getFullYear(), d.getMonth(), d.getDate())] *)
Definition startOfDay (d : Z) : Z := d / msPerDay * msPerDay.

(** [new Date(d.getFullYear(), d.getMonth(), d.getDate(), 23, 59, 59)] *)
Definition endOfDay (d : Z) : Z :=
  startOfDay d + (23 * 60 * 60 + 59 * 60 + 59) * 1000.

(** [Attendance.findOne({ student, group, lectureDate: { $gte, $lte } })] *)
Definition findOne (coll : list AttendanceDoc) (st gr : string) (gte lte : Z)
  : option AttendanceDoc :=
  List.find (fun r => bool_decide (student r = st) && bool_decide (group r = gr)
                      && bool_decide (gte <= lectureDate r)
                      && bool_decide (lectureDate r <= lte)) coll.

End Attendance.

(** ** controllers/attendanceController.js *)

Module AttendanceController.
Import Js Http Attendance.

(** [req.user], set by [authenticateToken]. *)
Record Caller : Type := mkCaller {
  id : string;
  role : Account.Role;
}.

Record ScanBody : Type := mkScanBody {
  qrData : option QRService.QRText;    (* [None]: absent or empty *)
  scan_groupId : string;
}.

(** Body of [POST /record] after [recordAttendanceValidation] passed. *)
Record RecordBody : Type := mkRecordBody {
  studentId : string;
  groupId : string;
  rec_status : Status;
  rec_lectureDate : Z;
}.

(** An entry of [attendanceList] that is an object with a string
    [studentId].  (On a [null] entry the [catch] block of the loop throws
    in turn and the call ends with 500; such lists are not part of
    [BulkBody].) *)
Record BulkItem : Type := mkBulkItem {
  item_studentId : string;
  item_status : StatusField;
}.

Record BulkBody : Type := mkBulkBody {
  bulk_groupId : string;
  bulk_lectureDate : Z;
  attendanceList : option (list BulkItem);   (* [None]: absent or not an array *)
}.

(** [doctor.assignedGroups.includes(groupId)] for the caller's document;
    reading [assignedGroups] of [null] throws. *)
Definition assignedTo (db : Store) (user : Caller) (gr : string) : Outcome bool :=
  match doctors db !! id user with
  | None => Throw "Cannot read properties of null (reading 'assignedGroups')"
  | Some d => Return (bool_decide (gr ∈ assignedGroups d))
  end.

Definition scanQRCode (now : Z) (db : Store) (user : Caller) (body : ScanBody)
  : Store * Response :=
  match qrData body with
  | None => (db, mkResponse 400 "QR data and group ID are required")
  | Some text =>
  if bool_decide (scan_groupId body = "") then
    (db, mkResponse 400 "QR data and group ID are required")
  else
  match QRService.parseQRData text with
  | Throw msg => (db, mkResponse 400 msg)
  | Return parsedQRData =>
  match QRService.validateQRCode now parsedQRData with
  | Throw msg => (db, mkResponse 400 msg)
  | Return _ =>
  match QRService.studentId parsedQRData ≫= (fun sid => pair sid <$> students db !! sid) with
  | None => (db, mkResponse 404 "Student not found")
  | Some (sid, st) =>
  if negb (s_isActive st) then
    (db, mkResponse 400 "Student account is inactive")
  else if bool_decide (s_group st ∉ groups db) then
    (* [populate('group')] left [null]; [student.group._id] throws *)
    (db, mkResponse 500 "Error processing QR code scan")
  else if bool_decide (s_group st ≠ scan_groupId body) then
    (db, mkResponse 400 "Student does not belong to this group")
  else
  let notAssigned :=
    if bool_decide (role user = Account.doctor)
    then match assignedTo db user (scan_groupId body) with
         | Throw e => Throw e
         | Return b => Return (negb b)
         end
    else Return false in
  match notAssigned with
  | Throw _ => (db, mkResponse 500 "Error processing QR code scan")
  | Return true => (db, mkResponse 403 "You are not assigned to this group")
  | Return false =>
  match findOne (attendance db) sid (scan_groupId body) (startOfDay now) (endOfDay now) with
  | Some _ => (db, mkResponse 409 "Attendance already recorded for this student today")
  | None =>
  match save db sid (scan_groupId body) (id user) now (Given present) qr_scan with
  | Throw _ => (db, mkResponse 500 "Error processing QR code scan")
  | Return (db', _) => (db', mkResponse 201 "Attendance recorded successfully")
  end end end end end end
  end.

Definition recordAttendance (db : Store) (user : Caller) (body : RecordBody)
  : Store * Response :=
  match students db !! studentId body with
  | None => (db, mkResponse 404 "Student not found")
  | Some st =>
  if bool_decide (s_group st ≠ groupId body) then
    (db, mkResponse 400 "Student does not belong to this group")
  else
  let notAssigned :=
    if bool_decide (role user = Account.doctor)
    then match assignedTo db user (groupId body) with
         | Throw e => Throw e
         | Return b => Return (negb b)
         end
    else Return false in
  match notAssigned with
  | Throw _ => (db, mkResponse 500 "Error recording attendance")
  | Return true => (db, mkResponse 403 "You are not assigned to this group")
  | Return false =>
  let lectureDateTime := rec_lectureDate body in
  match findOne (attendance db) (studentId body) (groupId body)
                (startOfDay lectureDateTime) (endOfDay lectureDateTime) with
  | Some _ =>
      (db, mkResponse 409 "Attendance already recorded for this student on this date")
  | None =>
  match save db (studentId body) (groupId body) (id user) lectureDateTime
             (Given (rec_status body)) manual with
  | Throw _ => (db, mkResponse 500 "Error recording attendance")
  | Return (db', _) => (db', mkResponse 201 "Attendance recorded successfully")
  end end end
  end.

(** The [data] of the bulk response: [successful] holds the student ids of
    the created records, [errors] the student id and message of each
    failed entry. *)
Record BulkData : Type := mkBulkData {
  successful : list string;
  errors : list (string * string);
}.

Inductive BulkResponse : Type :=
| Rejected (r : Response)
| Processed (data : BulkData).       (* 200, "Processed n attendance records" *)

(** One turn of [for (const item of attendanceList)]. *)
Definition bulkItem (user : Caller) (gr : string) (date : Z)
    (acc : Store * BulkData) (item : BulkItem) : Store * BulkData :=
  let '(db, out) := acc in
  match findOne (attendance db) (item_studentId item) gr (startOfDay date) (endOfDay date) with
  | Some _ =>
      (db, {| successful := successful out;
              errors := errors out ++ [(item_studentId item,
                                        "Attendance already recorded for this date")] |})
  | None =>
      match save db (item_studentId item) gr (id user) date (item_status item) manual with
      | Return (db', _) =>
          (db', {| successful := successful out ++ [item_studentId item];
                   errors := errors out |})
      | Throw msg =>
          (db, {| successful := successful out;
                  errors := errors out ++ [(item_studentId item, msg)] |})
      end
  end.

Definition bulkRecordAttendance (db : Store) (user : Caller) (body : BulkBody)
  : Store * BulkResponse :=
  match attendanceList body with
  | None => (db, Rejected (mkResponse 400 "Group ID and attendance list are required"))
  | Some items =>
  if bool_decide (bulk_groupId body = "") then
    (db, Rejected (mkResponse 400 "Group ID and attendance list are required"))
  else
  let notAssigned :=
    if bool_decide (role user = Account.doctor)
    then match assignedTo db user (bulk_groupId body) with
         | Throw e => Throw e
         | Return b => Return (negb b)
         end
    else Return false in
  match notAssigned with
  | Throw _ => (db, Rejected (mkResponse 500 "Error processing bulk attendance"))
  | Return true => (db, Rejected (mkResponse 403 "You are not assigned to this group"))
  | Return false =>
      let '(db', out) :=
        fold_left (bulkItem user (bulk_groupId body) (bulk_lectureDate body)) items
                  (db, {| successful := []; errors := [] |}) in
      (db', Processed out)
  end
  end.

End AttendanceController.

(** ** Attendance percentages of the reporting endpoints *)

Module Reports.
Import Js Attendance.

(** What goes into the JSON response: a Number, the string that
    [toFixed(1)] returns (a sign and a count of tenths), or the string
    [ToString(x)] that [toFixed] falls back to. *)
Inductive Percentage : Type :=
| AsNumber (x : JsNum)
| AsFixed1 (negative : bool) (tenths : Z)
| AsToString (x : JsNum).


(** [countDocuments(query)] and the [$sum] of a [$group] stage. *)
Definition countDocuments (coll : list AttendanceDoc) (query : AttendanceDoc -> bool) : Z :=
  Z.of_nat (length (List.filter query coll)).

Definition isPresent (r : AttendanceDoc) : bool := bool_decide (status r = present).

(** A count as a Number. *)
Definition number (n : Z) : JsNum := Num (inject_Z n).

(** AttendanceController.getAttendanceStats, [result.attendancePercentage]:
    [result.total > 0 ? Math.round((result.present / result.total) * 100 * 100) / 100 : 0]
    for the documents matching [matchQuery]. *)
Definition getAttendanceStats (coll : list AttendanceDoc) (matchQuery : AttendanceDoc -> bool)
  : Percentage :=
  let total := countDocuments coll matchQuery in
  let present := countDocuments coll (fun r => matchQuery r && isPresent r) in
  AsNumber
    (if gt (number total) (Num 0)
     then div (Math_round (mul (mul (div (number present) (number total)) (Num 100))
                               (Num 100)))
              (Num 100)
     else Num 0).





End Reports.

(** ** Properties named by the specification *)

Module Spec.
Import Attendance.

(** Calendar day of an instant. *)
Definition dayOf (d : Z) : Z := d / msPerDay.

(** [r1] and [r2] are non-absent records of one student in one group on one
    calendar day. *)
Definition clash (r1 r2 : AttendanceDoc) : bool :=
  indexed r1 && indexed r2
  && bool_decide (student r1 = student r2)
  && bool_decide (group r1 = group r2)
  && bool_decide (dayOf (lectureDate r1) = dayOf (lectureDate r2)).

(** At most one non-absent record per (student, group, calendar day). *)
Fixpoint oneNonAbsentPerDay (coll : list AttendanceDoc) : bool :=
  match coll with
  | [] => true
  | r :: rest => negb (existsb (clash r) rest) && oneNonAbsentPerDay rest
  end.

(** [r] is stamped no later than 23:59:59.000 of its day. *)
Definition beforeLastSecond (r : AttendanceDoc) : Prop :=
  lectureDate r <= endOfDay (lectureDate r).

(** The records stored for (student, group, day). *)
Definition recordsFor (coll : list AttendanceDoc) (st gr : string) (day : Z)
  : list AttendanceDoc :=
  List.filter (fun r => bool_decide (student r = st) && bool_decide (group r = gr)
                        && bool_decide (dayOf (lectureDate r) = day)) coll.

(** Account locked, as section 4.3 defines it. *)
Definition locked (now : Z) (u : Account.User) : Prop :=
  exists a l, Account.loginAttempts u = Some a /\ Account.lockUntil u = Some l
              /\ 5 <= a /\ now < l.

End Spec.

(** ** Sample data used by the worked instances below *)

Module Sample.
Import Js.

(** 2024-03-01T00:00:00.000 *)
Definition day0 : Z := 1709251200000.

(** A payload minted at [day0]. *)
Definition payload : QRService.Payload :=
  QRService.mkPayload (Some "student_attendance") (Some "s1") (JNumber day0).

(** The payload [{"type":"student_attendance","studentId":"s1","generatedAt":null}]. *)
Definition nullStampPayload : QRService.Payload :=
  QRService.mkPayload (Some "student_attendance") (Some "s1") JNull.

(** [generatedAt] a text that is no number, a stamp half a millisecond
    after 2023-11-14T22:13:20Z, and an object holding a [toString]
    property. *)
Definition textStampPayload : QRService.Payload :=
  QRService.mkPayload (Some "student_attendance") (Some "s1") (JString (units "yesterday")).

Definition fractionStampPayload : QRService.Payload :=
  QRService.mkPayload (Some "student_attendance") (Some "s1")
                      (JFraction (3400000000001 # 2)).

Definition objectStampPayload : QRService.Payload :=
  QRService.mkPayload (Some "student_attendance") (Some "s1")
                      (JObject [units "toString"]).

(** A stand-in for [bcrypt.compare]. *)
Definition compare (candidate hash : string) : bool :=
  bool_decide (hash = "bcrypt:" ++ candidate).

Definition account : Account.User :=
  Account.mkUser "s1" "s1@uni.edu" "bcrypt:Secret1" Account.student true None None None.

(** The same account as a stored document that holds five attempts and a
    lock until half an hour after [day0]. *)
Definition lockedAccount : Account.User :=
  Account.mkUser "s1" "s1@uni.edu" "bcrypt:Secret1" Account.student true
                 (Some 5) (Some (day0 + 1800000)) None.

(** The account collections, with [studentPaths] as the Student schema. *)
Definition models (studentPaths : list string) (u : Account.User) : AuthRoutes.Models :=
  AuthRoutes.mkModels (Mongoose.mkModel studentPaths [u])
                      (Mongoose.mkModel Mongoose.doctorSchema [])
                      (Mongoose.mkModel Mongoose.adminSchema []).

(** Student [s1] (active, group [g1]), student [s2] (disabled, group [g1]),
    student [s3] (active, group [g2]); doctor [d1] assigned to [g1], doctor
    [d2] assigned to [g2]; no attendance yet. *)
Definition store : Attendance.Store :=
  Attendance.mkStore
    {[ "s1" := Attendance.mkStudent "g1" true;
       "s2" := Attendance.mkStudent "g1" false;
       "s3" := Attendance.mkStudent "g2" true ]}
    {[ "d1" := Attendance.mkDoctor ["g1"];
       "d2" := Attendance.mkDoctor ["g2"] ]}
    {[ "g1"; "g2" ]}
    [].

Definition d1 : AttendanceController.Caller :=
  AttendanceController.mkCaller "d1" Account.doctor.

Definition d2 : AttendanceController.Caller :=
  AttendanceController.mkCaller "d2" Account.doctor.

Definition root : AttendanceController.Caller :=
  AttendanceController.mkCaller "a1" Account.admin.

(** Three records of [s1]: one [present], two [late]. *)
Definition oneOfThree : list Attendance.AttendanceDoc :=
  [Attendance.mkAttendance "s1" "g1" "d1" day0 Attendance.present Attendance.qr_scan;
   Attendance.mkAttendance "s1" "g1" "d1" (day0 + 86400000) Attendance.late Attendance.manual;
   Attendance.mkAttendance "s1" "g1" "d1" (day0 + 172800000) Attendance.late Attendance.manual].



Definition scanS1 : AttendanceController.ScanBody :=
  AttendanceController.mkScanBody (Some (QRService.Json payload)) "g1".

End Sample.

(** ** services/authService.js: password rules and random passwords *)

Module PasswordPolicy.
Import Stdlib.Strings.Ascii.

(** A password is a JavaScript string; each [ascii] stands for one UTF-16
    code unit (below 256), so [Stdlib.Strings.String.length] is [password.length]. *)
Definition inRange (lo hi c : ascii) : bool :=
  (nat_of_ascii lo <=? nat_of_ascii c)%nat
  && (nat_of_ascii c <=? nat_of_ascii hi)%nat.

Definition isUpper (c : ascii) : bool := inRange "A" "Z" c.
Definition isLower (c : ascii) : bool := inRange "a" "z" c.
Definition isDigit (c : ascii) : bool := inRange "0" "9" c.

(** [\w] *)
Definition isWord (c : ascii) : bool :=
  isUpper c || isLower c || isDigit c || bool_decide (c = "_"%char).

(** [/[class]/.test(s)] *)
Definition test (class : ascii -> bool) (s : string) : bool :=
  existsb class (Stdlib.Strings.String.list_ascii_of_string s).

Inductive Strength : Type := weak | medium | strong.

Global Instance Strength_eq_dec : EqDecision Strength.
Proof. solve_decision. Defined.

Definition calculatePasswordStrength (password : string) : Strength :=
  let score := 0%nat in
  let score := if (8 <=? Stdlib.Strings.String.length password)%nat then S score else score in
  let score := if (12 <=? Stdlib.Strings.String.length password)%nat then S score else score in
  let score := if test isLower password then S score else score in
  let score := if test isUpper password then S score else score in
  let score := if test isDigit password then S score else score in
  let score := if test (fun c => negb (isUpper c || isLower c || isDigit c)) password
               then S score else score in
  if (score <? 3)%nat then weak
  else if (score <? 5)%nat then medium
  else strong.

Record Validation : Type := mkValidation {
  isValid : bool;
  errors : list string;
  strength : Strength;
}.

Definition validatePassword (password : string) : Validation :=
  let minLength := 6%nat in
  let hasUpperCase := test isUpper password in
  let hasLowerCase := test isLower password in
  let hasNumbers := test isDigit password in
  let hasNonalphas := test (fun c => negb (isWord c)) password in
  let errors : list string := [] in
  let errors := if (Stdlib.Strings.String.length password <? minLength)%nat
                then (errors ++ ["Password must be at least 6 characters long"])%list
                else errors in
  let errors := if negb hasUpperCase
                then (errors ++ ["Password must contain at least one uppercase letter"])%list
                else errors in
  let errors := if negb hasLowerCase
                then (errors ++ ["Password must contain at least one lowercase letter"])%list
                else errors in
  let errors := if negb hasNumbers
                then (errors ++ ["Password must contain at least one number"])%list
                else errors in
  {| isValid := bool_decide (length errors = 0%nat);
     errors := errors;
     strength := calculatePasswordStrength password |}.





End PasswordPolicy.

(** ** The password helpers of the utility module (hashPassword,
    validatePasswordStrength, ...) *)

Module AuthUtils.
Import Stdlib.Strings.Ascii PasswordPolicy.

(** The character class of [hasSpecialChar]; code 34 is the double quote. *)
Definition specialChars : list ascii :=
  ["!"; "@"; "#"; "$"; "%"; "^"; "&"; "*"; "("; ")"; ","; "."; "?";
   ascii_of_nat 34; ":"; "{"; "}"; "|"; "<"; ">"]%char.

Definition isSpecial (c : ascii) : bool := bool_decide (c ∈ specialChars).

Record Requirements : Type := mkRequirements {
  minLength : bool;
  hasUpperCase : bool;
  hasLowerCase : bool;
  hasNumbers : bool;
  hasSpecialChar : bool;
}.

Record StrengthReport : Type := mkStrengthReport {
  isValid : bool;
  score : nat;
  requirements : Requirements;
  strength : Strength;
}.

Definition validatePasswordStrength (password : string) : StrengthReport :=
  let requirements :=
    {| minLength := (8 <=? Stdlib.Strings.String.length password)%nat;
       hasUpperCase := test isUpper password;
       hasLowerCase := test isLower password;
       hasNumbers := test isDigit password;
       hasSpecialChar := test isSpecial password |} in
  let score :=
    length (List.filter (fun b : bool => b)
              [minLength requirements; hasUpperCase requirements;
               hasLowerCase requirements; hasNumbers requirements;
               hasSpecialChar requirements]) in
  let isStrong := (4 <=? score)%nat && minLength requirements in
  {| isValid := isStrong;
     score := score;
     requirements := requirements;
     strength := if (score <=? 2)%nat then weak
                 else if (score <=? 3)%nat then medium else strong |}.

End AuthUtils.

(** ** services/qrService.js: issuing a payload *)

Module QRIssue.
Import Js QRService.

(** [generateStudentQRData(studentId, studentNumber)] with [timestamp] the
    value of [Date.now()]: the JSON text of an object that [JSON.parse]
    reads back with these properties ([studentNumber] and [uniqueId] are
    not kept in [Payload]; a [null] student id reads as [None]). *)
Definition generateStudentQRData (timestamp : Z) (studentId : option string) : QRText :=
  Json {| type := Some "student_attendance";
          studentId := studentId;
          generatedAt := JNumber timestamp |}.

End QRIssue.

(** ** StudentController.deleteStudent *)

Module StudentController.
Import Http Attendance.

(** [Attendance.deleteMany({ student: id })], then
    [Student.findByIdAndDelete(id)]. *)
Definition deleteStudent (db : Store) (id : string) : Store * Response :=
  match students db !! id with
  | None => (db, mkResponse 404 "Student not found")
  | Some _ =>
      ({| students := delete id (students db);
          doctors := doctors db;
          groups := groups db;
          attendance := List.filter (fun r => bool_decide (student r ≠ id))
                                    (attendance db) |},
       mkResponse 200 "Student deleted successfully")
  end.

End StudentController.

(** ** Status totals of the statistics endpoint and of the model's static
    [getAttendanceStats] *)

Module Totals.
Import Js.

Definition count (coll : list Attendance.AttendanceDoc)
    (query : Attendance.AttendanceDoc -> bool) (st : Attendance.Status) : Z :=
  Reports.countDocuments coll
    (fun r => query r && bool_decide (Attendance.status r = st)).

(** AttendanceController.getAttendanceStats: the [$group] with [_id: null],
    or the zero record when no document matches. *)
Record Result : Type := mkResult {
  total : Z;
  present : Z;
  absent : Z;
  late : Z;
  excused : Z;
}.

Definition totalStats (coll : list Attendance.AttendanceDoc)
    (matchQuery : Attendance.AttendanceDoc -> bool) : Result :=
  if bool_decide (0 < length (List.filter matchQuery coll))%nat
  then {| total := Reports.countDocuments coll matchQuery;
          present := count coll matchQuery Attendance.present;
          absent := count coll matchQuery Attendance.absent;
          late := count coll matchQuery Attendance.late;
          excused := count coll matchQuery Attendance.excused |}
  else {| total := 0; present := 0; absent := 0; late := 0; excused := 0 |}.

(** A row of [attendanceSchema.statics.getAttendanceStats]: one per student
    among the matching documents. *)
Record Row : Type := mkRow {
  _id : string;
  row_total : Z;
  row_present : Z;
  row_absent : Z;
  row_late : Z;
  attendancePercentage : Q;
}.

(** [$divide]: an error when the divisor is 0. *)
Definition divide (a b : Z) : Outcome Q :=
  if bool_decide (b = 0) then Throw "can't $divide by zero"
  else Return (inject_Z a / inject_Z b)%Q.

(** The pipeline [$match], [$group] by (student, status), [$group] by
    student, [$addFields]; rows in order of first appearance (the server
    leaves the order open). *)
Definition getAttendanceStats (coll : list Attendance.AttendanceDoc)
    (filters : Attendance.AttendanceDoc -> bool) : Outcome (list Row) :=
  let ofStudent (s : string) (r : Attendance.AttendanceDoc) :=
    filters r && bool_decide (Attendance.student r = s) in
  let row (s : string) : Outcome Row :=
    let t := count coll (ofStudent s) Attendance.present
             + count coll (ofStudent s) Attendance.absent
             + count coll (ofStudent s) Attendance.late
             + count coll (ofStudent s) Attendance.excused in
    let p := count coll (ofStudent s) Attendance.present in
    match divide p t with
    | Throw e => Throw e
    | Return q =>
        Return {| _id := s; row_total := t; row_present := p;
                  row_absent := count coll (ofStudent s) Attendance.absent;
                  row_late := count coll (ofStudent s) Attendance.late;
                  attendancePercentage := (q * 100)%Q |}
    end in
  fold_right (fun s acc =>
                match row s, acc with
                | Return r, Return rs => Return (r :: rs)
                | Throw e, _ => Throw e
                | _, Throw e => Throw e
                end)
             (Return [])
             (remove_dups (map Attendance.student (List.filter filters coll))).

End Totals.

(** ** AttendanceController.updateAttendance and deleteAttendance *)

Module AttendanceEdit.
Import Js Http Attendance.

(** The attendance collection with the [_id] of each document. *)
Definition findById (coll : list (string * AttendanceDoc)) (id : string)
  : option AttendanceDoc :=
  snd <$> List.find (fun d => bool_decide (d.1 = id)) coll.

(** An id as the handlers hold it: a string ([req.params.id],
    [objectId.toString()]) or an ObjectId ([req.user.id], which
    [authenticateToken] sets to [user._id]). *)
Inductive IdValue : Type :=
| AsString (hex : string)
| AsObjectId (hex : string).

(** [s !== v] for a string [s]: a string and an object are never
    strictly equal. *)
Definition strictNotEqual (s : string) (v : IdValue) : bool :=
  match v with
  | AsString hex => bool_decide (s ≠ hex)
  | AsObjectId _ => true
  end.

(** [req.user.role === 'doctor' && attendance.doctor.toString() !== req.user.id] *)
Definition notOwner (user : AttendanceController.Caller) (attendance : AttendanceDoc) : bool :=
  bool_decide (AttendanceController.role user = Account.doctor)
  && strictNotEqual (doctor attendance) (AsObjectId (AttendanceController.id user)).

Definition deleteAttendance (coll : list (string * AttendanceDoc))
    (user : AttendanceController.Caller) (id : string)
  : list (string * AttendanceDoc) * Response :=
  match findById coll id with
  | None => (coll, mkResponse 404 "Attendance record not found")
  | Some attendance =>
      if notOwner user attendance
      then (coll, mkResponse 403 "Can only delete your own attendance records")
      else (List.filter (fun d => bool_decide (d.1 ≠ id)) coll,
            mkResponse 200 "Attendance record deleted successfully")
  end.

(** [findByIdAndUpdate(id, { status })], [status] being absent from the
    body or a member of the enum: the document enters the partial index
    when it was [absent] and no longer is, and the index then refuses a
    second non-absent document with its key.  ([notes] and
    [lectureDetails] are not part of [AttendanceDoc].) *)
Definition updateAttendance (coll : list (string * AttendanceDoc))
    (user : AttendanceController.Caller) (id : string) (newStatus : option Status)
  : list (string * AttendanceDoc) * Response :=
  match findById coll id with
  | None => (coll, mkResponse 404 "Attendance record not found")
  | Some attendance =>
      if notOwner user attendance
      then (coll, mkResponse 403 "Can only update your own attendance records")
      else
        let updated :=
          {| student := student attendance; group := group attendance;
             doctor := doctor attendance; lectureDate := lectureDate attendance;
             status := default (status attendance) newStatus;
             recordedBy := recordedBy attendance |} in
        if negb (indexed attendance) && indexed updated
           && existsb (fun d => bool_decide (d.1 ≠ id) && indexed d.2
                                && sameKey d.2 updated) coll
        then (coll, mkResponse 500 "Error updating attendance")
        else (map (fun d => if bool_decide (d.1 = id) then (d.1, updated) else d) coll,
              mkResponse 200 "Attendance updated successfully")
  end.

End AttendanceEdit.

(** ** Sequences of recording requests *)

Module Session.
Import Attendance AttendanceController.

(** A request to one of the three recording handlers; a scan carries the
    instant at which it is served. *)
Inductive Request : Type :=
| Scan (now : Z) (user : Caller) (body : ScanBody)
| Record (user : Caller) (body : RecordBody)
| Bulk (user : Caller) (body : BulkBody).

(** The [lectureDate] a request gives to the records it stores. *)
Definition stamp (req : Request) : Z :=
  match req with
  | Scan now _ _ => now
  | Record _ body => rec_lectureDate body
  | Bulk _ body => bulk_lectureDate body
  end.

(** The store after the handler has served the request. *)
Definition handle (db : Store) (req : Request) : Store :=
  match req with
  | Scan now user body => (scanQRCode now db user body).1
  | Record user body => (recordAttendance db user body).1
  | Bulk user body => (bulkRecordAttendance db user body).1
  end.

(** Requests served one after the other. *)
Definition run (db : Store) (reqs : list Request) : Store :=
  fold_left handle reqs db.

End Session.

(** ** Further invariants *)

Module Invariants.
Import Attendance.

(** The uniqueness the partial index stands for: no two non-absent
    records with one student, group and [lectureDate]. *)
Fixpoint uniqueIndex (coll : list AttendanceDoc) : bool :=
  match coll with
  | [] => true
  | r :: rest =>
      negb (indexed r && existsb (fun r' => indexed r' && sameKey r' r) rest)
      && uniqueIndex rest
  end.

(** The caller passes the assignment check for group [gr]: only a doctor
    is checked, against the [assignedGroups] of the doctor's document. *)
Definition allowed (db : Store) (user : AttendanceController.Caller) (gr : string) : Prop :=
  AttendanceController.role user = Account.doctor ->
  exists d, doctors db !! AttendanceController.id user = Some d /\ gr ∈ assignedGroups d.

(** Number of character classes (lower, upper, digit, other) present in a
    password. *)
Definition classes (pw : string) : nat :=
  (Nat.b2n (PasswordPolicy.test PasswordPolicy.isLower pw)
   + Nat.b2n (PasswordPolicy.test PasswordPolicy.isUpper pw)
   + Nat.b2n (PasswordPolicy.test PasswordPolicy.isDigit pw)
   + Nat.b2n (PasswordPolicy.test
                (fun c => negb (PasswordPolicy.isUpper c || PasswordPolicy.isLower c
                                || PasswordPolicy.isDigit c)) pw))%nat.

(** What a login may not touch: identity and credentials of an account. *)
Definition credentials (u : Account.User)
  : string * string * string * Account.Role * bool :=
  (Account._id u, Account.email u, Account.password u, Account.role u,
   Account.isActive u).

(** An account as a schema without the lockout paths stores it. *)
Definition plain (u : Account.User) : Prop :=
  Account.loginAttempts u = None /\ Account.lockUntil u = None
  /\ Account.lastLoginAt u = None.

(** A collection under such a schema: unique [_id]s, plain documents. *)
Definition wellStored (m : Mongoose.Model) : Prop :=
  ("loginAttempts" ∉ Mongoose.paths m) /\ ("lockUntil" ∉ Mongoose.paths m)
  /\ ("lastLoginAt" ∉ Mongoose.paths m)
  /\ NoDup (map Account._id (Mongoose.docs m))
  /\ Forall plain (Mongoose.docs m).

End Invariants.

(** * Theorems *)

(** ** Binary64 rounding *)

Section Rounding.
Import Js.
Local Open Scope Q_scope.

Lemma Qltb_spec (x y : Q) : Qltb x y = true <-> x < y.
Proof. unfold Qltb, Qlt. apply bool_decide_eq_true. Qed.

Lemma Qltb_false (x y : Q) : Qltb x y = false <-> y <= x.
Proof.
  unfold Qltb, Qle. rewrite bool_decide_eq_false. lia.
Qed.

Lemma pow2_pos (k : Z) : 0 < pow2 k.
Proof. apply Qpower_0_lt. reflexivity. Qed.

Lemma pow2_add (a b : Z) : pow2 (a + b) == pow2 a * pow2 b.
Proof. unfold pow2. apply Qpower_plus. discriminate. Qed.

Lemma pow2_le (a b : Z) : (a <= b)%Z -> pow2 a <= pow2 b.
Proof. intros H. apply Qpower_le_compat_l; [exact H | discriminate]. Qed.

Lemma pow2_lt_inv (a b : Z) : pow2 a < pow2 b -> (a < b)%Z.
Proof. intros H. eapply Qpower_lt_compat_l_inv; [exact H | reflexivity]. Qed.

Lemma pow2_nonneg (k : Z) : (0 <= k)%Z -> pow2 k == inject_Z (2 ^ k).
Proof. intros H. unfold pow2. symmetry. apply (Zpower_Qpower 2 k H). Qed.

Lemma pow2_opp (k : Z) : pow2 (- k) == / pow2 k.
Proof. unfold pow2. apply Qpower_opp. Qed.


Lemma Q_as_div (x : Q) : x == inject_Z (Qnum x) / inject_Z (Zpos (Qden x)).
Proof. destruct x as [a b]. simpl. apply Qmake_Qdiv. Qed.

Lemma Qdiv_bounds (x : Q) (a b : Z) :
  (0 < b)%Z -> x == inject_Z a / inject_Z b ->
  forall n d : Z, (0 < d)%Z -> (n * b <= a * d)%Z -> inject_Z n / inject_Z d <= x.
Proof.
  intros Hb Hx n d Hd H. rewrite Hx.
  assert (0 < inject_Z b) by (rewrite <- (Zlt_Qlt 0); exact Hb).
  assert (0 < inject_Z d) by (rewrite <- (Zlt_Qlt 0); exact Hd).
  apply Qle_shift_div_l; [assumption|].
  unfold Qdiv. rewrite <- Qmult_assoc, (Qmult_comm (/ _)), Qmult_assoc.
  apply Qle_shift_div_r; [assumption|].
  rewrite <- !inject_Z_mult, <- Zle_Qle. exact H.
Qed.

Lemma exponentOf_le (x : Q) : 0 < x -> pow2 (exponentOf x) <= x.
Proof.
  intros Hx. unfold exponentOf.
  set (a := Qnum x). set (b := Zpos (Qden x)).
  set (e0 := (Z.log2 a - Z.log2 b)%Z).
  destruct (Qltb x (pow2 e0)) eqn:E.
  2:{ apply Qltb_false in E. exact E. }
  assert (Ha : (0 < a)%Z).
  { unfold Qlt in Hx. simpl in Hx. subst a. lia. }
  assert (Hb : (0 < b)%Z) by (subst b; lia).
  destruct (Z.log2_spec a Ha) as [Ha1 _].
  destruct (Z.log2_spec b Hb) as [_ Hb2].
  pose proof (Z.log2_nonneg a) as La. pose proof (Z.log2_nonneg b) as Lb.
  replace (e0 - 1)%Z with (Z.log2 a + - (Z.succ (Z.log2 b)))%Z by (subst e0; lia).
  rewrite pow2_add, pow2_opp.
  rewrite !pow2_nonneg by lia.
  apply (Qdiv_bounds x a b Hb (Q_as_div x)); [lia|].
  assert (0 < 2 ^ Z.log2 a)%Z by lia.
  nia.
Qed.

Lemma Qdiv_upper (x : Q) (a b : Z) :
  (0 < b)%Z -> x == inject_Z a / inject_Z b ->
  forall n d : Z, (0 < d)%Z -> (a * d < n * b)%Z -> x < inject_Z n / inject_Z d.
Proof.
  intros Hb Hx n d Hd H. rewrite Hx.
  assert (0 < inject_Z b) by (rewrite <- (Zlt_Qlt 0); exact Hb).
  assert (0 < inject_Z d) by (rewrite <- (Zlt_Qlt 0); exact Hd).
  apply Qlt_shift_div_r; [assumption|].
  unfold Qdiv. rewrite <- Qmult_assoc, (Qmult_comm (/ _)), Qmult_assoc.
  apply Qlt_shift_div_l; [assumption|].
  rewrite <- !inject_Z_mult, <- Zlt_Qlt. lia.
Qed.

Lemma exponentOf_lt (x : Q) : 0 < x -> x < pow2 (exponentOf x + 1).
Proof.
  intros Hx. unfold exponentOf.
  set (a := Qnum x). set (b := Zpos (Qden x)).
  set (e0 := (Z.log2 a - Z.log2 b)%Z).
  destruct (Qltb x (pow2 e0)) eqn:E.
  { apply Qltb_spec in E. by replace (e0 - 1 + 1)%Z with e0 by lia. }
  assert (Ha : (0 < a)%Z).
  { unfold Qlt in Hx. simpl in Hx. subst a. lia. }
  assert (Hb : (0 < b)%Z) by (subst b; lia).
  destruct (Z.log2_spec a Ha) as [_ Ha2].
  destruct (Z.log2_spec b Hb) as [Hb1 _].
  pose proof (Z.log2_nonneg a) as La. pose proof (Z.log2_nonneg b) as Lb.
  replace (e0 + 1)%Z with (Z.succ (Z.log2 a) + - Z.log2 b)%Z by (subst e0; lia).
  rewrite pow2_add, pow2_opp.
  rewrite !pow2_nonneg by lia.
  apply (Qdiv_upper x a b Hb (Q_as_div x)); [lia|].
  assert (0 < 2 ^ Z.succ (Z.log2 a))%Z by lia.
  nia.
Qed.

Lemma roundHalfEven_Z (y : Q) :
  let n := Qnum y in let d := Zpos (Qden y) in
  (2 * (roundHalfEven y * d - n) <= d /\ - d <= 2 * (roundHalfEven y * d - n)
   /\ n / d <= roundHalfEven y)%Z.
Proof.
  intros n d. unfold roundHalfEven. fold n d.
  assert (Hd : (0 < d)%Z) by (subst d; lia).
  pose proof (Z.div_mod n d ltac:(lia)) as Hdm.
  pose proof (Z.mod_pos_bound n d Hd) as Hr.
  destruct (Z.compare_spec (2 * (n mod d)) d) as [E|E|E];
    [destruct (Z.even (n / d))| |]; nia.
Qed.

Lemma roundHalfEven_bounds (y : Q) :
  y - (1 # 2) <= inject_Z (roundHalfEven y) /\ inject_Z (roundHalfEven y) <= y + (1 # 2).
Proof.
  destruct (roundHalfEven_Z y) as (H1 & H2 & _).
  destruct y as [n d]. simpl in *.
  unfold Qle, Qminus, Qplus, Qopp, inject_Z. simpl. split; lia.
Qed.

Lemma roundHalfEven_integer (y : Q) (z : Z) : y == inject_Z z -> roundHalfEven y = z.
Proof.
  intros H. unfold Qeq in H. simpl in H.
  unfold roundHalfEven.
  assert (E : Qnum y = (z * Zpos (Qden y))%Z) by lia.
  rewrite E, Z.mod_mul, Z.div_mul by lia. simpl. reflexivity.
Qed.

Lemma roundHalfEven_nonneg (y : Q) : 0 <= y -> (0 <= roundHalfEven y)%Z.
Proof.
  intros H. destruct (roundHalfEven_Z y) as (_ & _ & H3).
  unfold Qle in H. simpl in H.
  assert (0 <= Qnum y / Zpos (Qden y))%Z by (apply Z.div_pos; lia).
  lia.
Qed.

Lemma roundPositive_unfold (x : Q) :
  roundPositive x =
    let v := inject_Z (roundHalfEven (x / pow2 (binadeOf x))) * pow2 (binadeOf x) in
    if Qltb v (pow2 1024) then Num (Qred v) else Inf false.
Proof. reflexivity. Qed.

Lemma scaled_back (x : Q) (E : Z) : x / pow2 E * pow2 E == x.
Proof.
  unfold Qdiv. rewrite <- Qmult_assoc, (Qmult_comm (/ _)), Qmult_inv_r, Qmult_1_r.
  - reflexivity.
  - pose proof (pow2_pos E) as H. intros H0. rewrite H0 in H. discriminate.
Qed.

Lemma rounded_value (x : Q) (E : Z) :
  let v := inject_Z (roundHalfEven (x / pow2 E)) * pow2 E in
  x - pow2 E * (1 # 2) <= v /\ v <= x + pow2 E * (1 # 2).
Proof.
  intros v. subst v.
  destruct (roundHalfEven_bounds (x / pow2 E)) as [H1 H2].
  pose proof (pow2_pos E) as HP. pose proof (scaled_back x E) as Hx.
  set (y := x / pow2 E) in *. set (m := inject_Z (roundHalfEven y)) in *.
  set (P := pow2 E) in *.
  split.
  - assert (H : (y - (1 # 2)) * P <= m * P) by (apply Qmult_le_compat_r; [exact H1 | lra]).
    lra.
  - assert (H : m * P <= (y + (1 # 2)) * P) by (apply Qmult_le_compat_r; [exact H2 | lra]).
    lra.
Qed.





Lemma binadeOf_cases (x : Q) :
  0 < x -> pow2 (binadeOf x) <= x * pow2 (-52) + 1.
Proof.
  intros Hx. unfold binadeOf.
  pose proof (exponentOf_le x Hx) as He.
  pose proof (pow2_pos (-52)) as H52.
  assert (0 <= x * pow2 (-52)) by (apply Qmult_le_0_compat; lra).
  destruct (Z.max_spec (exponentOf x - 52) (-1074)) as [[_ ->] | [_ ->]].
  - pose proof (pow2_le (-1074) 0 ltac:(lia)) as Hsub. change (pow2 0) with 1 in Hsub. lra.
  - replace (exponentOf x - 52)%Z with (exponentOf x + -52)%Z by lia.
    rewrite pow2_add.
    assert (pow2 (exponentOf x) * pow2 (-52) <= x * pow2 (-52))
      by (apply Qmult_le_compat_r; lra).
    lra.
Qed.

Lemma pow2_53 : pow2 53 == inject_Z (2 ^ 53).
Proof. apply pow2_nonneg. lia. Qed.

Lemma roundPositive_nonneg (x : Q) :
  0 < x ->
  0 <= inject_Z (roundHalfEven (x / pow2 (binadeOf x))) * pow2 (binadeOf x).
Proof.
  intros Hx. pose proof (pow2_pos (binadeOf x)).
  apply Qmult_le_0_compat; [|lra].
  rewrite <- (Zle_Qle 0). apply roundHalfEven_nonneg.
  apply Qle_shift_div_l; [lra|]. rewrite Qmult_0_l. lra.
Qed.

(** Below [2^53] the unit in the last place is at most 1. *)
Lemma binadeOf_small (x : Q) : 0 < x -> x < pow2 53 -> (binadeOf x <= 0)%Z.
Proof.
  intros Hx Hlt. unfold binadeOf.
  pose proof (exponentOf_le x Hx) as He.
  assert (H : pow2 (exponentOf x) < pow2 53) by lra.
  apply pow2_lt_inv in H. lia.
Qed.

(** An integer is a multiple of the unit in the last place of any binade
    below [2^53]. *)
Lemma integer_scaled (n E : Z) :
  (E <= 0)%Z -> inject_Z n / pow2 E == inject_Z (n * 2 ^ (- E)).
Proof.
  intros HE. rewrite inject_Z_mult, <- (pow2_nonneg (- E)) by lia. rewrite pow2_opp.
  reflexivity.
Qed.

Lemma Qle_half_integer (a b : Z) : inject_Z a <= inject_Z b + (1 # 2) -> (a <= b)%Z.
Proof. unfold Qle, Qplus, inject_Z. simpl. lia. Qed.

Lemma Qge_half_integer (a b : Z) : inject_Z b - (1 # 2) <= inject_Z a -> (b <= a)%Z.
Proof. unfold Qle, Qminus, Qplus, Qopp, inject_Z. simpl. lia. Qed.

(** Rounding does not cross a small integer: a real at most [M] rounds to
    at most [M] ... *)
Lemma roundPositive_le_integer (x : Q) (M : Z) :
  0 < x -> x <= inject_Z M -> (M < 2 ^ 53)%Z ->
  exists v, roundPositive x = Num v /\ v <= inject_Z M.
Proof.
  intros Hx HM Hsmall. rewrite roundPositive_unfold. cbv zeta.
  set (E := binadeOf x).
  assert (Hlt53 : inject_Z M < pow2 53) by (rewrite pow2_53, <- Zlt_Qlt; exact Hsmall).
  assert (HE : (E <= 0)%Z) by (apply binadeOf_small; lra).
  pose proof (pow2_pos E) as HP.
  pose proof (integer_scaled M E HE) as HK.
  set (K := (M * 2 ^ (- E))%Z) in *.
  assert (Hz : x / pow2 E <= inject_Z K).
  { rewrite <- HK. unfold Qdiv. apply Qmult_le_compat_r; [exact HM|].
    apply Qlt_le_weak, Qinv_lt_0_compat, HP. }
  destruct (roundHalfEven_bounds (x / pow2 E)) as [_ Hup].
  assert (Hm : (roundHalfEven (x / pow2 E) <= K)%Z) by (apply Qle_half_integer; lra).
  set (v := inject_Z (roundHalfEven (x / pow2 E)) * pow2 E).
  assert (Hv : v <= inject_Z M).
  { subst v.
    assert (HKM : inject_Z K * pow2 E == inject_Z M) by (rewrite <- HK; apply scaled_back).
    rewrite <- HKM. apply Qmult_le_compat_r; [|lra]. rewrite <- Zle_Qle. exact Hm. }
  assert (Hlt : Qltb v (pow2 1024) = true).
  { apply Qltb_spec.
    assert (pow2 53 < pow2 1024) by (apply Qpower_lt_compat_l; [lia | reflexivity]).
    lra. }
  rewrite Hlt. exists (Qred v). split; [reflexivity|]. rewrite Qred_correct. exact Hv.
Qed.

(** ... and a real at least [M] rounds to at least [M], or overflows. *)
Lemma roundPositive_ge_integer (x : Q) (M : Z) :
  0 < x -> inject_Z M <= x -> (0 < M <= 2 ^ 52)%Z ->
  roundPositive x = Inf false \/ exists v, roundPositive x = Num v /\ inject_Z M <= v.
Proof.
  intros Hx HM Hrange. rewrite roundPositive_unfold. cbv zeta.
  set (E := binadeOf x).
  set (v := inject_Z (roundHalfEven (x / pow2 E)) * pow2 E).
  assert (Hv : inject_Z M <= v).
  { pose proof (pow2_pos E) as HP.
    destruct (Qlt_le_dec x (pow2 53)) as [Hsmall | Hbig].
    - assert (HE : (E <= 0)%Z) by (apply binadeOf_small; assumption).
      pose proof (integer_scaled M E HE) as HK.
      set (K := (M * 2 ^ (- E))%Z) in *.
      assert (Hz : inject_Z K <= x / pow2 E).
      { rewrite <- HK. unfold Qdiv. apply Qmult_le_compat_r; [exact HM|].
        apply Qlt_le_weak, Qinv_lt_0_compat, HP. }
      destruct (roundHalfEven_bounds (x / pow2 E)) as [Hlow _].
      assert (Hm : (K <= roundHalfEven (x / pow2 E))%Z) by (apply Qge_half_integer; lra).
      subst v.
      assert (HKM : inject_Z K * pow2 E == inject_Z M) by (rewrite <- HK; apply scaled_back).
      rewrite <- HKM. apply Qmult_le_compat_r; [|lra]. rewrite <- Zle_Qle. exact Hm.
    - destruct (rounded_value x E) as [H1 _]. fold v in H1.
      pose proof (binadeOf_cases x Hx) as HPb. fold E in HPb.
      assert (HMq : inject_Z M <= inject_Z (2 ^ 52)) by (rewrite <- Zle_Qle; lia).
      rewrite pow2_53 in Hbig.
      change (pow2 (-52)) with (1 # 4503599627370496) in HPb.
      change (inject_Z (2 ^ 53)) with (9007199254740992 # 1) in Hbig.
      change (inject_Z (2 ^ 52)) with (4503599627370496 # 1) in HMq.
      lra. }
  destruct (Qltb v (pow2 1024)); [right | left; reflexivity].
  exists (Qred v). split; [reflexivity|]. rewrite Qred_correct. exact Hv.
Qed.

(** A difference of at most [M] is not greater than [M] after rounding. *)
Lemma roundToDouble_not_gt (x : Q) (M : Z) :
  (0 <= M < 2 ^ 52)%Z -> x <= inject_Z M ->
  gt (roundToDouble x) (Num (inject_Z M)) = false.
Proof.
  intros HM Hx. unfold roundToDouble.
  assert (HM0 : 0 <= inject_Z M) by (rewrite <- (Zle_Qle 0); lia).
  destruct (x ?= 0) eqn:C.
  - simpl. apply Qltb_false. exact HM0.
  - apply Qlt_alt in C. rewrite roundPositive_unfold. cbv zeta.
    pose proof (roundPositive_nonneg (- x) ltac:(lra)) as Hv0.
    destruct (Qltb _ (pow2 1024)); simpl; [|reflexivity].
    apply Qltb_false. rewrite Qred_correct. lra.
  - apply Qgt_alt in C.
    destruct (roundPositive_le_integer x M C Hx ltac:(lia)) as (v & -> & Hv).
    simpl. apply Qltb_false. exact Hv.
Qed.

(** A difference of at least [M + 1] is greater than [M] after rounding. *)
Lemma roundToDouble_gt (x : Q) (M : Z) :
  (0 <= M < 2 ^ 52)%Z -> inject_Z (M + 1) <= x ->
  gt (roundToDouble x) (Num (inject_Z M)) = true.
Proof.
  intros HM Hx. unfold roundToDouble.
  assert (HM1 : 0 < inject_Z (M + 1)) by (rewrite <- (Zlt_Qlt 0); lia).
  assert (Hlt : inject_Z M < inject_Z (M + 1)) by (rewrite <- Zlt_Qlt; lia).
  destruct (x ?= 0) eqn:C.
  - apply Qeq_alt in C. lra.
  - apply Qlt_alt in C. lra.
  - apply Qgt_alt in C.
    destruct (roundPositive_ge_integer x (M + 1) C Hx ltac:(lia)) as [-> | (v & -> & Hv)].
    + reflexivity.
    + simpl. apply Qltb_spec. lra.
Qed.

(** On an integer difference the comparison with an integer threshold is
    exact. *)
Lemma roundToDouble_gt_integer (x : Q) (d M : Z) :
  x == inject_Z d -> (0 <= M < 2 ^ 52)%Z ->
  gt (roundToDouble x) (Num (inject_Z M)) = bool_decide (M < d)%Z.
Proof.
  intros Hx HM. case_bool_decide as Hd.
  - apply roundToDouble_gt; [exact HM|]. rewrite Hx, <- Zle_Qle. lia.
  - apply roundToDouble_not_gt; [exact HM|]. rewrite Hx, <- Zle_Qle. lia.
Qed.

End Rounding.

(** ** QR freshness *)

Section QRFreshness.
Import Js QRService.

Lemma maxAge_value : maxAge = 31536000000.
Proof. reflexivity. Qed.

(** The conversion of [generatedAt] throws exactly on the values singled
    out by [toPrimitiveThrows], and with one message. *)
Lemma ToNumber_outcome (v : JsVal) :
  match ToNumber v with
  | Throw msg => msg = cannotConvert /\ toPrimitiveThrows v = true
  | Return _ => toPrimitiveThrows v = false
  end.
Proof.
  revert v. fix IH 1. intros v.
  destruct v as [| |[|]| | | | |elements|keys]; try reflexivity.
  - destruct elements as [|element [|second rest]]; [reflexivity| |].
    + pose proof (IH element) as Helement.
      cbn [toPrimitiveThrows existsb]. rewrite orb_false_r.
      destruct element as [| |b| | | | |inner|keys]; try reflexivity; exact Helement.
    + cbn [ToNumber].
      change (toPrimitiveThrows (JArray (element :: second :: rest)))
        with (existsb toPrimitiveThrows (element :: second :: rest)).
      destruct (existsb toPrimitiveThrows (element :: second :: rest)); [split|]; reflexivity.
  - cbn [ToNumber]. destruct (toPrimitiveThrows (JObject keys)); [split|]; reflexivity.
Qed.

Lemma inject_Z_sub (a b : Z) : (inject_Z a - inject_Z b == inject_Z (a - b))%Q.
Proof.
  unfold Qminus. rewrite <- inject_Z_opp, <- inject_Z_plus. reflexivity.
Qed.

Lemma maxAge_small : 0 <= maxAge < 2 ^ 52.
Proof. unfold maxAge. lia. Qed.

(** The verdict on a payload is decided by [ToNumber] of [generatedAt]. *)
Lemma validateQRCode_cases (now : Z) (p : Payload) :
  validateQRCode now p =
    match ToNumber (generatedAt p) with
    | Throw typeError => Throw typeError
    | Return NaN | Return (Inf false) => Return true
    | Return (Inf true) => Throw "QR code has expired"
    | Return (Num g) =>
        if gt (roundToDouble (inject_Z now - g)) (Num (inject_Z maxAge))
        then Throw "QR code has expired" else Return true
    end.
Proof.
  unfold validateQRCode.
  destruct (ToNumber (generatedAt p)) as [[|g|[|]]|]; reflexivity.
Qed.

(** For an integer [generatedAt] the comparison is the exact one. *)
Lemma validateQRCode_integer (now g : Z) (p : Payload) :
  ToNumber (generatedAt p) = Return (Num (inject_Z g)) ->
  validateQRCode now p =
    if bool_decide (maxAge < now - g) then Throw "QR code has expired" else Return true.
Proof.
  intros Hg. rewrite validateQRCode_cases, Hg.
  rewrite (roundToDouble_gt_integer _ (now - g) maxAge (inject_Z_sub now g) maxAge_small).
  reflexivity.
Qed.

(** C7. For a payload whose [generatedAt] is a number [g], validation at
    instant [now] fails with "QR code has expired" exactly when
    [now - g] exceeds one year (365 * 24 * 60 * 60 * 1000 ms) and passes
    otherwise; an age one second below the threshold passes and any age
    above it fails. *)
Theorem validateQRCode_numeric (now g : Z) (ty sid : option string) :
  let p := mkPayload ty sid (JNumber g) in
  maxAge = 365 * 24 * 60 * 60 * 1000
  /\ (validateQRCode now p = Throw "QR code has expired" <-> maxAge < now - g)
  /\ (validateQRCode now p = Return true <-> now - g <= maxAge)
  /\ validateQRCode (g + (maxAge - 1000)) p = Return true
  /\ (forall age, maxAge < age ->
        validateQRCode (g + age) p = Throw "QR code has expired").
Proof.
  intros p. split; [reflexivity|].
  assert (E : forall t, validateQRCode t p =
            if bool_decide (maxAge < t - g)
            then Throw "QR code has expired" else Return true).
  { intros t. apply validateQRCode_integer. reflexivity. }
  repeat split.
  - rewrite E. case_bool_decide; [done | discriminate].
  - intros H. rewrite E. rewrite bool_decide_eq_true_2; done.
  - rewrite E. case_bool_decide; [discriminate | lia].
  - intros H. rewrite E. rewrite bool_decide_eq_false_2; [done | lia].
  - rewrite E. rewrite bool_decide_eq_false_2; [done | lia].
  - intros age H. rewrite E. rewrite bool_decide_eq_true_2; [done | lia].
Qed.

(** C10, as stated, fails: a payload whose [generatedAt] is [null] is not
    a number, yet [now - null] is [now], so the payload is rejected as
    expired at any instant later than one year after the epoch. *)
Lemma validateQRCode_null_stamp_rejected :
  is_number (generatedAt Sample.nullStampPayload) = false
  /\ validateQRCode 1700000000000 Sample.nullStampPayload
     = Throw "QR code has expired".
Proof. split; [reflexivity | vm_compute; reflexivity]. Qed.

(** C10, amended. Validation works on [Number(generatedAt)].  It throws a
    [TypeError] exactly when that conversion throws: [generatedAt] is an
    object with a property named [toString], or an array holding such an
    object.  Otherwise it accepts when the converted value is [NaN] (a
    missing [generatedAt], a string that is no numeric literal, any other
    object) or [+Infinity], and when [now] minus the value is at most one
    year, a value in the future included; it answers "QR code has
    expired" only when [now] minus the value strictly exceeds one year,
    and always when it exceeds it by a millisecond or more or the value is
    [-Infinity]; for an integer value the threshold is exact.  [null],
    [false] and the empty string convert to 0 and [true] to 1, and are
    judged as these numbers. *)
Theorem validateQRCode_verdict (now : Z) (p : Payload) :
  let g := generatedAt p in
  let expired : Outcome bool := Throw "QR code has expired" in
  (validateQRCode now p = Throw cannotConvert <-> toPrimitiveThrows g = true)
  /\ (toPrimitiveThrows g = false -> exists x, ToNumber g = Return x)
  /\ (forall x, ToNumber g = Return x ->
        match x with
        | NaN | Inf false => validateQRCode now p = Return true
        | Inf true => validateQRCode now p = expired
        | Num q =>
            ((inject_Z now - q <= inject_Z maxAge)%Q -> validateQRCode now p = Return true)
            /\ ((inject_Z (maxAge + 1) <= inject_Z now - q)%Q -> validateQRCode now p = expired)
            /\ (validateQRCode now p = expired -> (inject_Z maxAge < inject_Z now - q)%Q)
            /\ (forall n, q = inject_Z n ->
                  validateQRCode now p
                  = if bool_decide (maxAge < now - n) then expired else Return true)
        end)
  /\ ToNumber JUndefined = Return NaN
  /\ ToNumber JNull = Return (Num 0)
  /\ ToNumber (JBool false) = Return (Num 0)
  /\ ToNumber (JBool true) = Return (Num 1)
  /\ ToNumber (JString []) = Return (Num 0)
  /\ (forall n, ToNumber (JNumber n) = Return (Num (inject_Z n)))
  /\ (forall s, ToNumber (JString s) = Return (StringToNumber s))
  /\ (forall keys, ToNumber (JObject keys)
                   = if bool_decide (units "toString" ∈ keys)
                     then Throw cannotConvert else Return NaN).
Proof.
  intros g expired.
  pose proof (ToNumber_outcome g) as Hout.
  pose proof (validateQRCode_cases now p) as Hcases. fold g in Hcases.
  split; [|split; [|split]].
  - rewrite Hcases. destruct (ToNumber g) as [[|q|[|]]|msg].
    + rewrite Hout. split; discriminate.
    + rewrite Hout. destruct (gt _ _); split; discriminate.
    + rewrite Hout. split; discriminate.
    + rewrite Hout. split; discriminate.
    + destruct Hout as [-> ->]. split; reflexivity.
  - intros Hno. destruct (ToNumber g) as [x|msg]; [by exists x|].
    destruct Hout as [_ Hthrows]. congruence.
  - intros x Hx. rewrite Hx in Hcases.
    destruct x as [|q|[|]]; try exact Hcases.
    split; [|split; [|split]].
    + intros Hage. rewrite Hcases.
      by rewrite (roundToDouble_not_gt _ maxAge maxAge_small Hage).
    + intros Hage. rewrite Hcases.
      by rewrite (roundToDouble_gt _ maxAge maxAge_small Hage).
    + intros Hexp. rewrite Hcases in Hexp.
      destruct (Qlt_le_dec (inject_Z maxAge) (inject_Z now - q)) as [|Hle]; [assumption|].
      rewrite (roundToDouble_not_gt _ maxAge maxAge_small Hle) in Hexp. discriminate.
    + intros n ->. apply validateQRCode_integer. exact Hx.
  - repeat split; reflexivity.
Qed.

End QRFreshness.

(** Worked instance of the numeric case: a payload minted at
    2024-03-01 is accepted one second before its first anniversary of
    365 days and rejected one millisecond after it. *)
Lemma validateQRCode_numeric_witness :
  QRService.validateQRCode (Sample.day0 + (QRService.maxAge - 1000)) Sample.payload
    = Js.Return true
  /\ QRService.validateQRCode (Sample.day0 + (QRService.maxAge + 1)) Sample.payload
    = Js.Throw "QR code has expired".
Proof.
  pose proof (validateQRCode_numeric 0 Sample.day0
                (Some "student_attendance") (Some "s1")) as (_ & _ & _ & Hyoung & Hold).
  split.
  - exact Hyoung.
  - apply Hold. unfold QRService.maxAge. lia.
Defined.

(** Worked instances of the amended rule at 2023-11-14: [null] converts
    to 0 and is rejected as expired; a text that is no number, and a stamp
    half a millisecond in the future, are accepted; an object with a
    [toString] property makes validation throw. *)
Lemma validateQRCode_verdict_witness :
  QRService.validateQRCode 1700000000000 Sample.nullStampPayload
    = Js.Throw "QR code has expired"
  /\ QRService.validateQRCode 1700000000000 Sample.textStampPayload = Js.Return true
  /\ QRService.validateQRCode 1700000000000 Sample.fractionStampPayload = Js.Return true
  /\ QRService.validateQRCode 1700000000000 Sample.objectStampPayload
    = Js.Throw Js.cannotConvert.
Proof.
  destruct (validateQRCode_verdict 1700000000000 Sample.nullStampPayload)
    as (_ & _ & Hnull & _).
  destruct (validateQRCode_verdict 1700000000000 Sample.textStampPayload)
    as (_ & _ & Htext & _).
  destruct (validateQRCode_verdict 1700000000000 Sample.fractionStampPayload)
    as (_ & _ & Hfraction & _).
  destruct (validateQRCode_verdict 1700000000000 Sample.objectStampPayload)
    as ([_ Hobject] & _).
  split; [|split; [|split]].
  - destruct (Hnull (Js.Num 0) eq_refl) as (_ & _ & _ & Hint).
    exact (Hint 0 eq_refl).
  - exact (Htext Js.NaN eq_refl).
  - destruct (Hfraction (Js.Num (3400000000001 # 2)) eq_refl) as (Hfresh & _).
    apply Hfresh. vm_compute. discriminate.
  - apply Hobject. reflexivity.
Defined.

(** ** Lockout *)

Section Lockout.
Import Js Account Mongoose AuthService Http AuthRoutes.

Lemma isAccountLocked_spec (now : Z) (user : User) :
  0 <= now -> (isAccountLocked now user = true <-> Spec.locked now user).
Proof.
  intros Hnow. unfold isAccountLocked, Spec.locked, falsy.
  destruct (loginAttempts user) as [a|], (lockUntil user) as [l|]; simpl.
  - split.
    + destruct (bool_decide (a = 0) || bool_decide (l = 0)); [discriminate|].
      intros [Ha Hl]%andb_prop.
      apply bool_decide_eq_true_1 in Ha, Hl. by exists a, l.
    + intros (a' & l' & [= <-] & [= <-] & Ha & Hl).
      rewrite (bool_decide_eq_false_2 (a = 0)) by lia.
      rewrite (bool_decide_eq_false_2 (l = 0)) by lia. simpl.
      rewrite !bool_decide_eq_true_2 by lia. reflexivity.
  - split; [by rewrite orb_true_r | intros (? & ? & _ & [=] & _)].
  - split; [discriminate | intros (? & ? & [=] & _)].
  - split; [discriminate | intros (? & ? & [=] & _)].
Qed.

Variable bcrypt_compare : string -> string -> bool.

(** The response of [login] to an existing account is 423 exactly when
    [isAccountLocked] holds. *)
Lemma login_423_iff (now : Z) (db : Models) (e pw : string) (user : User) (k : ModelName) :
  findUser db e = Some (user, k) ->
  (status (login bcrypt_compare now db e pw).2 = 423 <-> isAccountLocked now user = true).
Proof.
  intros Hfind. unfold login. rewrite Hfind.
  destruct (isAccountLocked now user); simpl; [done|].
  destruct (isActive user); simpl; [|split; discriminate].
  destruct (comparePassword bcrypt_compare user pw); simpl; split; discriminate.
Qed.

(** For the document object [user] that [login] has loaded and a clock
    reading [now] (milliseconds since the epoch, so not negative),
    [isAccountLocked] holds, and [login] answers 423 without touching the
    store, if and only if [user.loginAttempts >= 5] and
    [user.lockUntil > now]. *)
Lemma login_locked_iff (now : Z) (db : Models) (e pw : string) (user : User) (k : ModelName) :
  0 <= now ->
  findUser db e = Some (user, k) ->
  (isAccountLocked now user = true <-> Spec.locked now user)
  /\ (status (login bcrypt_compare now db e pw).2 = 423 <-> Spec.locked now user)
  /\ (Spec.locked now user -> (login bcrypt_compare now db e pw).1 = db).
Proof.
  intros Hnow Hfind.
  pose proof (isAccountLocked_spec now user Hnow) as Hspec.
  pose proof (login_423_iff now db e pw user k Hfind) as H423.
  split; [exact Hspec|]. split; [rewrite H423; exact Hspec|].
  intros Hl. apply Hspec in Hl. unfold login. rewrite Hfind, Hl. reflexivity.
Qed.

(** What [login] loads is the image under [strict] of a stored document. *)
Lemma findUser_loaded (db : Models) (e : string) (user : User) (k : ModelName) :
  findUser db e = Some (user, k) ->
  exists d, d ∈ docs (getModel db k) /\ user = strict (getModel db k) d.
Proof.
  unfold findUser, findOne_email. intros H.
  destruct (List.find _ (docs (Student db))) as [d|] eqn:E1.
  { injection H as <- <-. apply find_some in E1 as [? _].
    exists d. split; [by apply list_elem_of_In | done]. }
  destruct (List.find _ (docs (Doctor db))) as [d|] eqn:E2.
  { injection H as <- <-. apply find_some in E2 as [? _].
    exists d. split; [by apply list_elem_of_In | done]. }
  destruct (List.find _ (docs (Admin db))) as [d|] eqn:E3; [|done].
  injection H as <- <-. apply find_some in E3 as [? _].
  exists d. split; [by apply list_elem_of_In | done].
Qed.

(** A loaded document has no [loginAttempts] when the schema declares
    none, and is then never locked. *)
Lemma loaded_never_locked (now : Z) (m : Model) (d : User) :
  "loginAttempts" ∉ paths m -> isAccountLocked now (strict m d) = false.
Proof.
  intros H. unfold isAccountLocked, strict, declared. simpl.
  by rewrite (bool_decide_eq_false_2 _ H).
Qed.

End Lockout.

Section LockoutPersistence.
Import Js Account Mongoose AuthService Http AuthRoutes.

Variable bcrypt_compare : string -> string -> bool.

Let invalid := mkResponse 401 "Invalid email or password".
Let lockedOut :=
  mkResponse 423 "Account is temporarily locked due to multiple failed login attempts".
Let welcome := mkResponse 200 "Authentication successful".

(** A failed password check on the only student account, under a schema
    that declares neither [loginAttempts] nor [lockUntil]: [save()] writes
    nothing, the collections are as before. *)
Lemma login_wrong_not_persisted (ps : list string) (i e pw : string) (r : Role)
    (now : Z) (wrong : string) :
  "loginAttempts" ∉ ps -> "lockUntil" ∉ ps -> "lastLoginAt" ∉ ps ->
  bcrypt_compare wrong pw = false ->
  let u := mkUser i e pw r true None None None in
  login bcrypt_compare now (Sample.models ps u) e wrong = (Sample.models ps u, invalid).
Proof.
  intros H1 H2 H3 Hcmp u.
  unfold login, findUser, findOne_email, Sample.models; simpl.
  rewrite (bool_decide_eq_true_2 (e = e)) by done. simpl.
  unfold strict, declared; simpl.
  rewrite !bool_decide_eq_false_2 by done. simpl.
  unfold comparePassword; simpl. rewrite Hcmp; simpl.
  unfold handleFailedLogin, findById, save, persist, strict, declared; simpl.
  rewrite (bool_decide_eq_true_2 (i = i)) by done. simpl.
  rewrite (bool_decide_eq_true_2 (i = i)) by done.
  rewrite !bool_decide_eq_false_2 by done.
  reflexivity.
Qed.

(** The same step under a schema that declares both paths: the counter is
    stored, and the fifth failure stores the lock. *)
Lemma login_wrong_persisted (ps : list string) (i e pw : string) (r : Role)
    (n lock : option Z) (now : Z) (wrong : string) :
  "loginAttempts" ∈ ps -> "lockUntil" ∈ ps -> "lastLoginAt" ∉ ps ->
  bcrypt_compare wrong pw = false ->
  isAccountLocked now (mkUser i e pw r true n lock None) = false ->
  let attempts := (if falsy n then 0 else default 0 n) + 1 in
  login bcrypt_compare now (Sample.models ps (mkUser i e pw r true n lock None)) e wrong
  = (Sample.models ps
       (mkUser i e pw r true (Some attempts)
               (if bool_decide (5 <= attempts) then Some (now + 30 * 60 * 1000) else lock)
               None),
     invalid).
Proof.
  intros H1 H2 H3 Hcmp Hfree attempts.
  unfold login, findUser, findOne_email, Sample.models; simpl.
  rewrite (bool_decide_eq_true_2 (e = e)) by done. simpl.
  unfold strict, declared; simpl.
  rewrite (bool_decide_eq_true_2 ("loginAttempts" ∈ ps)) by done.
  rewrite (bool_decide_eq_true_2 ("lockUntil" ∈ ps)) by done.
  rewrite (bool_decide_eq_false_2 ("lastLoginAt" ∈ ps)) by done.
  rewrite Hfree. simpl.
  unfold comparePassword; simpl. rewrite Hcmp; simpl.
  unfold handleFailedLogin, findById, save, persist, strict, declared; simpl.
  rewrite (bool_decide_eq_true_2 (i = i)) by done. simpl.
  rewrite (bool_decide_eq_true_2 (i = i)) by done.
  rewrite (bool_decide_eq_true_2 ("loginAttempts" ∈ ps)) by done.
  rewrite (bool_decide_eq_true_2 ("lockUntil" ∈ ps)) by done.
  rewrite (bool_decide_eq_false_2 ("lastLoginAt" ∈ ps)) by done.
  reflexivity.
Qed.

(** With [loginAttempts] and [lockUntil] declared in the schema, the
    lockout scenario of section 8 goes through: five failures lock the
    account until thirty minutes after the fifth, a correct password inside
    the window is answered 423, and a correct password after it succeeds
    and resets the counter. *)
Lemma lockout_when_declared (ps : list string) (i e pw : string) (r : Role)
    (t1 t2 t3 t4 t5 t6 t7 : Z) (wrong right : string) :
  "loginAttempts" ∈ ps -> "lockUntil" ∈ ps -> "lastLoginAt" ∉ ps ->
  bcrypt_compare wrong pw = false -> bcrypt_compare right pw = true ->
  0 <= t5 -> t6 < t5 + 30 * 60 * 1000 -> t5 + 30 * 60 * 1000 <= t7 ->
  let u5 := mkUser i e pw r true (Some 5) (Some (t5 + 30 * 60 * 1000)) None in
  logins bcrypt_compare (Sample.models ps (mkUser i e pw r true None None None))
         [(t1, e, wrong); (t2, e, wrong); (t3, e, wrong); (t4, e, wrong); (t5, e, wrong)]
  = (Sample.models ps u5, [invalid; invalid; invalid; invalid; invalid])
  /\ login bcrypt_compare t6 (Sample.models ps u5) e right
     = (Sample.models ps u5, lockedOut)
  /\ login bcrypt_compare t7 (Sample.models ps u5) e right
     = (Sample.models ps (mkUser i e pw r true (Some 0) None None), welcome).
Proof.
  intros H1 H2 H3 Hw Hr H5 H6 H7 u5. split; [|split].
  - cbn [logins].
    rewrite login_wrong_persisted by done; cbn.
    rewrite login_wrong_persisted by done; cbn.
    rewrite login_wrong_persisted by done; cbn.
    rewrite login_wrong_persisted by done; cbn.
    rewrite login_wrong_persisted by done; cbn.
    reflexivity.
  - unfold login, findUser, findOne_email, Sample.models; simpl.
    rewrite (bool_decide_eq_true_2 (e = e)) by done. simpl.
    unfold strict, declared; simpl.
    rewrite (bool_decide_eq_true_2 ("loginAttempts" ∈ ps)) by done.
    rewrite (bool_decide_eq_true_2 ("lockUntil" ∈ ps)) by done.
    rewrite (bool_decide_eq_false_2 ("lastLoginAt" ∈ ps)) by done.
    unfold isAccountLocked; simpl.
    rewrite (bool_decide_eq_false_2 (t5 + 1800000 = 0)) by lia. simpl.
    rewrite (bool_decide_eq_true_2 (t6 < t5 + 1800000)) by lia. reflexivity.
  - unfold login, findUser, findOne_email, Sample.models; simpl.
    rewrite (bool_decide_eq_true_2 (e = e)) by done. simpl.
    unfold strict, declared; simpl.
    rewrite (bool_decide_eq_true_2 ("loginAttempts" ∈ ps)) by done.
    rewrite (bool_decide_eq_true_2 ("lockUntil" ∈ ps)) by done.
    rewrite (bool_decide_eq_false_2 ("lastLoginAt" ∈ ps)) by done.
    unfold isAccountLocked; simpl.
    rewrite (bool_decide_eq_false_2 (t5 + 1800000 = 0)) by lia. simpl.
    rewrite (bool_decide_eq_false_2 (t7 < t5 + 1800000)) by lia. simpl.
    unfold comparePassword; simpl. rewrite Hr; simpl.
    unfold handleSuccessfulLogin, findById, save, persist, strict, declared; simpl.
    rewrite (bool_decide_eq_true_2 (i = i)) by done. simpl.
    rewrite (bool_decide_eq_true_2 (i = i)) by done.
    rewrite (bool_decide_eq_true_2 ("loginAttempts" ∈ ps)) by done.
    rewrite (bool_decide_eq_true_2 ("lockUntil" ∈ ps)) by done.
    rewrite (bool_decide_eq_false_2 ("lastLoginAt" ∈ ps)) by done.
    reflexivity.
Qed.

End LockoutPersistence.

(** C1, on the code as it is. models/Student.js declares neither
    [loginAttempts] nor [lockUntil], so the counter assigned in
    [handleFailedLogin] is never stored: after five logins with a wrong
    password, one second apart, the student account is as before (no
    counter, no [lockUntil]), and a sixth login one second later with the
    right password is answered 200 instead of 423. *)
Theorem five_failures_do_not_lock :
  let db0 := Sample.models Mongoose.studentSchema Sample.account in
  let t := Sample.day0 in
  let wrong (k : Z) := (t + k * 1000, "s1@uni.edu", "guess") in
  AuthRoutes.logins Sample.compare db0 [wrong 1; wrong 2; wrong 3; wrong 4; wrong 5]
    = (db0, replicate 5 (Http.mkResponse 401 "Invalid email or password"))
  /\ AuthRoutes.login Sample.compare (t + 6 * 1000) db0 "s1@uni.edu" "Secret1"
    = (db0, Http.mkResponse 200 "Authentication successful")
  /\ AuthService.isAccountLocked (t + 6 * 1000) Sample.account = false.
Proof. vm_compute. repeat split; reflexivity. Qed.

Section StoredLock.
Import Js Account Mongoose AuthService Http AuthRoutes.

Variable bcrypt_compare : string -> string -> bool.

(** C9, on the code as it is. None of the schemas of models/ declares
    [loginAttempts] or [lockUntil], so the document that [login] loads
    never has them: whatever the collections hold, [login] never answers
    423.  A stored account with five attempts and a lock that ends half an
    hour after 2024-03-01T00:00:00, locked by the rule of section 4.3 one
    second into that window, is answered 200 with the right password and
    401 with a wrong one, and the stored document stays as it is. *)
Theorem stored_lock_is_not_read (now : Z) (students doctors admins : list User)
    (e pw : string) :
  let db := mkModels (mkModel studentSchema students) (mkModel doctorSchema doctors)
                     (mkModel adminSchema admins) in
  let stored := Sample.models studentSchema Sample.lockedAccount in
  let t := Sample.day0 + 1000 in
  status (login bcrypt_compare now db e pw).2 <> 423
  /\ Spec.locked t Sample.lockedAccount
  /\ login Sample.compare t stored "s1@uni.edu" "Secret1"
     = (stored, mkResponse 200 "Authentication successful")
  /\ login Sample.compare t stored "s1@uni.edu" "guess"
     = (stored, mkResponse 401 "Invalid email or password").
Proof.
  intros db stored t. split; [|split; [|split]].
  - unfold login. destruct (findUser db e) as [[user k]|] eqn:Hfind; [|discriminate].
    apply findUser_loaded in Hfind as (d & _ & ->).
    rewrite loaded_never_locked by (destruct k; compute_done).
    destruct (negb (isActive _)); [discriminate|].
    destruct (negb (comparePassword _ _ _)); discriminate.
  - exists 5, (Sample.day0 + 1800000). subst t. unfold Sample.day0.
    repeat split; lia.
  - vm_compute. reflexivity.
  - vm_compute. reflexivity.
Qed.

End StoredLock.

(** ** Attendance recording *)

Section Recording.
Import Js Http Attendance AttendanceController.

Let forbidden := mkResponse 403 "You are not assigned to this group".

(** C6. A caller with role doctor whose [assignedGroups] does not contain
    the target group, acting on a student who exists, is active and belongs
    to that (existing) group, is answered 403 "You are not assigned to this
    group" and the store is unchanged, both when scanning a well-formed,
    fresh QR payload of the student and when recording manually. *)
Theorem unassigned_doctor_forbidden (now : Z) (db : Store) (user : Caller)
    (d : DoctorDoc) (st : StudentDoc) (sid gr : string) (p : QRService.Payload)
    (status : Status) (lectureDate : Z) :
  role user = Account.doctor ->
  doctors db !! id user = Some d ->
  gr ∉ assignedGroups d ->
  students db !! sid = Some st ->
  s_isActive st = true ->
  s_group st = gr ->
  gr ∈ groups db ->
  gr ≠ "" ->
  QRService.type p = Some "student_attendance" ->
  QRService.studentId p = Some sid ->
  QRService.validateQRCode now p = Return true ->
  scanQRCode now db user (mkScanBody (Some (QRService.Json p)) gr) = (db, forbidden)
  /\ recordAttendance db user (mkRecordBody sid gr status lectureDate) = (db, forbidden).
Proof.
  intros Hrole Hdoc Hnot Hst Hact Hgr Hex Hne Hty Hsid Hfresh.
  split.
  - unfold scanQRCode; simpl.
    rewrite (bool_decide_eq_false_2 (gr = "")) by done.
    unfold QRService.parseQRData. rewrite Hty.
    rewrite bool_decide_eq_false_2 by (intros H; by apply H).
    rewrite Hfresh, Hsid. simpl. rewrite Hst. simpl. rewrite Hact. simpl.
    rewrite Hgr.
    rewrite (bool_decide_eq_false_2 (gr ∉ groups db)) by (intros H; by apply H).
    rewrite (bool_decide_eq_false_2 (gr ≠ gr)) by (intros H; by apply H).
    rewrite (bool_decide_eq_true_2 _ Hrole).
    unfold assignedTo. rewrite Hdoc.
    rewrite (bool_decide_eq_false_2 _ Hnot). reflexivity.
  - unfold recordAttendance; simpl. rewrite Hst, Hgr.
    rewrite (bool_decide_eq_false_2 (gr ≠ gr)) by (intros H; by apply H).
    rewrite (bool_decide_eq_true_2 _ Hrole).
    unfold assignedTo. rewrite Hdoc.
    rewrite (bool_decide_eq_false_2 _ Hnot). reflexivity.
Qed.

(** The scanning path refuses a disabled student before any record is
    looked up or written. *)
Lemma scan_inactive_rejected (now : Z) (db : Store) (user : Caller)
    (st : StudentDoc) (sid gr : string) (p : QRService.Payload) :
  students db !! sid = Some st ->
  s_isActive st = false ->
  gr ≠ "" ->
  QRService.type p = Some "student_attendance" ->
  QRService.studentId p = Some sid ->
  QRService.validateQRCode now p = Return true ->
  scanQRCode now db user (mkScanBody (Some (QRService.Json p)) gr)
  = (db, mkResponse 400 "Student account is inactive").
Proof.
  intros Hst Hact Hne Hty Hsid Hfresh.
  unfold scanQRCode; simpl.
  rewrite (bool_decide_eq_false_2 (gr = "")) by done.
  unfold QRService.parseQRData. rewrite Hty.
  rewrite bool_decide_eq_false_2 by (intros H; by apply H).
  rewrite Hfresh, Hsid. simpl. rewrite Hst. simpl. rewrite Hact. reflexivity.
Qed.

(** [findOne] answers as soon as some stored record matches. *)
Lemma findOne_is_Some (coll : list AttendanceDoc) (st gr : string) (gte lte : Z)
    (r : AttendanceDoc) :
  r ∈ coll -> student r = st -> group r = gr ->
  gte <= lectureDate r <= lte ->
  is_Some (findOne coll st gr gte lte).
Proof.
  intros Hin Hs Hg [H1 H2]. unfold findOne.
  destruct (List.find _ coll) eqn:E; [by eexists|].
  apply list_elem_of_In in Hin.
  pose proof (find_none _ _ E r Hin) as Hf. simpl in Hf.
  rewrite !bool_decide_eq_true_2 in Hf by done. discriminate.
Qed.

(** The intended behaviour, where the day window does cover the stored
    record: a manual call that passes the student, group and assignment
    checks is answered 409 and leaves the store as it is. *)
Lemma record_duplicate_in_window (db : Store) (user : Caller) (body : RecordBody)
    (st : StudentDoc) (r : AttendanceDoc) :
  students db !! studentId body = Some st ->
  s_group st = groupId body ->
  role user ≠ Account.doctor ->
  r ∈ attendance db -> student r = studentId body -> group r = groupId body ->
  startOfDay (rec_lectureDate body) <= lectureDate r <= endOfDay (rec_lectureDate body) ->
  recordAttendance db user body
  = (db, mkResponse 409 "Attendance already recorded for this student on this date").
Proof.
  intros Hst Hgr Hrole Hin Hs Hg Hwin.
  unfold recordAttendance. rewrite Hst, Hgr.
  rewrite (bool_decide_eq_false_2 (groupId body ≠ groupId body)) by (intros H; by apply H).
  rewrite (bool_decide_eq_false_2 _ Hrole).
  destruct (findOne_is_Some _ _ _ _ _ r Hin Hs Hg Hwin) as [x ->]. reflexivity.
Qed.

(** One turn of the bulk loop adds exactly one outcome and removes no
    stored record. *)
Lemma bulkItem_outcome (user : Caller) (gr : string) (date : Z)
    (db : Store) (out : BulkData) (item : BulkItem) :
  (length (successful (bulkItem user gr date (db, out) item).2)
   + length (errors (bulkItem user gr date (db, out) item).2)
   = length (successful out) + length (errors out) + 1)%nat
  /\ attendance db `prefix_of` attendance (bulkItem user gr date (db, out) item).1.
Proof.
  unfold bulkItem.
  destruct (findOne _ _ _ _ _); simpl.
  - rewrite length_app; simpl. split; [lia | done].
  - unfold save.
    destruct (item_status item); try destruct (violatesIndex _ _); simpl;
      rewrite length_app; simpl; (split; [lia|]); try done;
      by apply prefix_app_r.
Qed.

(** The bulk loop hands every entry exactly one outcome, whatever happened
    to the entries before it, and never removes a stored record. *)
Lemma bulk_loop_outcomes (user : Caller) (gr : string) (date : Z)
    (items : list BulkItem) (acc : Store * BulkData) :
  (length (successful (fold_left (bulkItem user gr date) items acc).2)
   + length (errors (fold_left (bulkItem user gr date) items acc).2)
   = length (successful acc.2) + length (errors acc.2) + length items)%nat
  /\ attendance acc.1 `prefix_of`
       attendance (fold_left (bulkItem user gr date) items acc).1.
Proof.
  revert acc. induction items as [|item items IH]; intros [db out].
  - simpl. split; [lia | done].
  - cbn [fold_left].
    destruct (IH (bulkItem user gr date (db, out) item)) as [IHn IHp].
    destruct (bulkItem_outcome user gr date db out item) as [Hn Hp].
    split.
    + rewrite IHn, Hn. simpl. lia.
    + etrans; [exact Hp | exact IHp].
Qed.

(** The manual path never reads [isActive]: enabling or disabling the
    student changes neither the answer nor the records stored. *)
Lemma record_ignores_isActive (db : Store) (user : Caller) (body : RecordBody)
    (g : string) (active : bool) :
  students db !! studentId body = Some (mkStudent g active) ->
  let db' := {| students := <[studentId body := mkStudent g (negb active)]> (students db);
                doctors := doctors db; groups := groups db;
                attendance := attendance db |} in
  (recordAttendance db' user body).2 = (recordAttendance db user body).2
  /\ attendance (recordAttendance db' user body).1
     = attendance (recordAttendance db user body).1.
Proof.
  intros Hst db'. unfold recordAttendance, assignedTo, save.
  subst db'. cbn [students doctors groups attendance].
  rewrite lookup_insert_eq, Hst. cbn [s_group].
  case_bool_decide; [done|].
  destruct (if bool_decide (role user = Account.doctor) then _ else _) as [[]|]; try done.
  destruct (findOne _ _ _ _ _); [done|].
  destruct (violatesIndex _ _); done.
Qed.

(** The bulk path never reads the student or group collections: whatever
    they hold, the same entries succeed and the same records are stored. *)
Lemma bulk_ignores_students (db : Store) (user : Caller) (body : BulkBody)
    (studs : gmap string StudentDoc) (grps : gset string) :
  let db' := {| students := studs; doctors := doctors db; groups := grps;
                attendance := attendance db |} in
  (bulkRecordAttendance db' user body).2 = (bulkRecordAttendance db user body).2
  /\ attendance (bulkRecordAttendance db' user body).1
     = attendance (bulkRecordAttendance db user body).1.
Proof.
  intros db'. unfold bulkRecordAttendance, assignedTo.
  subst db'. cbn [doctors].
  destruct (attendanceList body) as [items|]; [|done].
  case_bool_decide; [done|].
  destruct (if bool_decide (role user = Account.doctor) then _ else _) as [[]|]; try done.
  set (f := bulkItem user (bulk_groupId body) (bulk_lectureDate body)).
  assert (Hloop : forall (acc1 acc2 : Store * BulkData),
            attendance acc1.1 = attendance acc2.1 -> acc1.2 = acc2.2 ->
            attendance (fold_left f items acc1).1 = attendance (fold_left f items acc2).1
            /\ (fold_left f items acc1).2 = (fold_left f items acc2).2).
  { induction items as [|item items IH]; intros [db1 out1] [db2 out2] Ha Ho;
      simpl in Ha, Ho; [done|].
    cbn [fold_left]. apply IH; subst out2; unfold f, bulkItem, save; rewrite Ha;
      destruct (findOne _ _ _ _ _); try done;
      destruct (item_status item); try done;
      destruct (violatesIndex _ _); simpl; congruence. }
  destruct (Hloop ({| students := studs; doctors := doctors db; groups := grps;
                      attendance := attendance db |},
                   {| successful := []; errors := [] |})
                  (db, {| successful := []; errors := [] |}) eq_refl eq_refl)
    as [H1 H2].
  destruct (fold_left f items _) as [dbA outA], (fold_left f items _) as [dbB outB].
  simpl in H1, H2. simpl. by subst.
Qed.

(** No record stamped after 23:59:59.000 is found by the duplicate search
    of its own day. *)
Lemma findOne_misses_last_second (coll : list AttendanceDoc) (st gr : string) (date : Z) :
  Forall (fun r => endOfDay date < lectureDate r) coll ->
  findOne coll st gr (startOfDay date) (endOfDay date) = None.
Proof.
  intros Hall. unfold findOne.
  induction Hall as [|r coll Hr _ IH]; simpl; [done|].
  rewrite (bool_decide_eq_false_2 (lectureDate r <= endOfDay date)) by lia.
  by rewrite andb_false_r.
Qed.

(** *** What the duplicate check does guarantee *)

Lemma startOfDay_le (d : Z) : startOfDay d <= d.
Proof.
  unfold startOfDay, msPerDay. rewrite Z.mul_comm. apply Z.mul_div_le. lia.
Qed.

Lemma same_day_same_window (d1 d2 : Z) :
  Spec.dayOf d1 = Spec.dayOf d2 ->
  startOfDay d1 = startOfDay d2 /\ endOfDay d1 = endOfDay d2.
Proof.
  unfold Spec.dayOf, endOfDay, startOfDay. intros ->. done.
Qed.

Lemma oneNonAbsentPerDay_snoc (coll : list AttendanceDoc) (r : AttendanceDoc) :
  Spec.oneNonAbsentPerDay (coll ++ [r])
  = Spec.oneNonAbsentPerDay coll && forallb (fun r' => negb (Spec.clash r' r)) coll.
Proof.
  induction coll as [|a coll IH]; simpl; [reflexivity|].
  rewrite IH, existsb_app. simpl. rewrite orb_false_r.
  destruct (existsb (Spec.clash a) coll), (Spec.clash a r),
    (Spec.oneNonAbsentPerDay coll); reflexivity.
Qed.

(** A [save] that follows an empty duplicate search keeps the invariant,
    provided no stored record is stamped in the last 999 ms of its day. *)
Lemma guarded_save_preserves (db db' : Store) (st gr dr : string) (date : Z)
    (sf : StatusField) (by_ : RecordedBy) (r : AttendanceDoc) :
  Forall Spec.beforeLastSecond (attendance db) ->
  Spec.oneNonAbsentPerDay (attendance db) = true ->
  findOne (attendance db) st gr (startOfDay date) (endOfDay date) = None ->
  save db st gr dr date sf by_ = Return (db', r) ->
  Spec.oneNonAbsentPerDay (attendance db') = true
  /\ attendance db' = (attendance db ++ [r])%list /\ lectureDate r = date.
Proof.
  intros Hwin Hinv Hnone Hsave.
  assert (Hr : attendance db' = (attendance db ++ [r])%list
               /\ student r = st /\ group r = gr /\ lectureDate r = date).
  { unfold save in Hsave.
    destruct sf; try discriminate;
      destruct (violatesIndex _ _); try discriminate;
      injection Hsave as <- <-; done. }
  destruct Hr as (Hcoll & Hs & Hg & Hd).
  split; [|done].
  rewrite Hcoll, oneNonAbsentPerDay_snoc, Hinv. simpl.
  apply forallb_forall. intros r' Hin.
  destruct (Spec.clash r' r) eqn:Hclash; [|reflexivity]. exfalso.
  unfold Spec.clash in Hclash.
  apply andb_prop in Hclash as [Hclash Hday].
  apply andb_prop in Hclash as [Hclash Hgr].
  apply andb_prop in Hclash as [_ Hst].
  apply bool_decide_eq_true_1 in Hday, Hgr, Hst.
  rewrite Hd in Hday. destruct (same_day_same_window _ _ Hday) as [E1 E2].
  apply list_elem_of_In in Hin.
  assert (Hb : Spec.beforeLastSecond r') by (eapply Forall_forall in Hwin; eauto).
  destruct (findOne_is_Some (attendance db) st gr (startOfDay date) (endOfDay date) r')
    as [x Hx]; try congruence.
  rewrite <- E1, <- E2. split; [apply startOfDay_le | exact Hb].
Qed.

(** Manual recording keeps "at most one non-absent record per student,
    group and day" on a store without records from the last 999 ms of a
    day. *)
Lemma recordAttendance_preserves (db : Store) (user : Caller) (body : RecordBody) :
  Forall Spec.beforeLastSecond (attendance db) ->
  Spec.oneNonAbsentPerDay (attendance db) = true ->
  Spec.oneNonAbsentPerDay (attendance (recordAttendance db user body).1) = true.
Proof.
  intros Hwin Hinv. unfold recordAttendance.
  destruct (students db !! studentId body); [|done].
  case_bool_decide; [done|].
  destruct (if bool_decide (role user = Account.doctor) then _ else _) as [[]|]; try done.
  destruct (findOne _ _ _ _ _) eqn:Hnone; [done|].
  destruct (save _ _ _ _ _ _ _) as [[db' r]|] eqn:Hsave; [|done].
  simpl. by destruct (guarded_save_preserves _ _ _ _ _ _ _ _ _ Hwin Hinv Hnone Hsave).
Qed.

(** So does scanning. *)
Lemma scanQRCode_preserves (now : Z) (db : Store) (user : Caller) (body : ScanBody) :
  Forall Spec.beforeLastSecond (attendance db) ->
  Spec.oneNonAbsentPerDay (attendance db) = true ->
  Spec.oneNonAbsentPerDay (attendance (scanQRCode now db user body).1) = true.
Proof.
  intros Hwin Hinv. unfold scanQRCode.
  destruct (qrData body); [|done].
  case_bool_decide; [done|].
  destruct (QRService.parseQRData _); [|done].
  destruct (QRService.validateQRCode _ _); [|done].
  destruct (_ ≫= _) as [[sid st]|]; [|done].
  destruct (negb (s_isActive st)); [done|].
  case_bool_decide; [done|].
  case_bool_decide; [done|].
  destruct (if bool_decide (role user = Account.doctor) then _ else _) as [[]|]; try done.
  destruct (findOne _ _ _ _ _) eqn:Hnone; [done|].
  destruct (save _ _ _ _ _ _ _) as [[db' r]|] eqn:Hsave; [|done].
  simpl. by destruct (guarded_save_preserves _ _ _ _ _ _ _ _ _ Hwin Hinv Hnone Hsave).
Qed.

(** So does the bulk loop, for a lecture date that is itself stamped no
    later than 23:59:59.000. *)
Lemma bulk_loop_preserves (user : Caller) (gr : string) (date : Z)
    (items : list BulkItem) (acc : Store * BulkData) :
  date <= endOfDay date ->
  Forall Spec.beforeLastSecond (attendance acc.1) ->
  Spec.oneNonAbsentPerDay (attendance acc.1) = true ->
  Spec.oneNonAbsentPerDay
    (attendance (fold_left (bulkItem user gr date) items acc).1) = true.
Proof.
  intros Hdate. revert acc.
  induction items as [|item items IH]; intros [db out] Hwin Hinv; [done|].
  cbn [fold_left]. simpl in Hwin, Hinv.
  assert (Hstep : Forall Spec.beforeLastSecond
                    (attendance (bulkItem user gr date (db, out) item).1)
                  /\ Spec.oneNonAbsentPerDay
                       (attendance (bulkItem user gr date (db, out) item).1) = true).
  { unfold bulkItem.
    destruct (findOne _ _ _ _ _) eqn:Hnone; [done|].
    destruct (save _ _ _ _ _ _ _) as [[db' r]|] eqn:Hsave; [|done].
    destruct (guarded_save_preserves _ _ _ _ _ _ _ _ _ Hwin Hinv Hnone Hsave)
      as (Hinv' & Hcoll & Hd).
    simpl. split; [|done].
    rewrite Hcoll. apply Forall_app. split; [done|].
    apply Forall_singleton. unfold Spec.beforeLastSecond. by rewrite Hd. }
  destruct Hstep as [Hwin' Hinv']. by apply IH.
Qed.

Lemma bulkRecordAttendance_preserves (db : Store) (user : Caller) (body : BulkBody) :
  bulk_lectureDate body <= endOfDay (bulk_lectureDate body) ->
  Forall Spec.beforeLastSecond (attendance db) ->
  Spec.oneNonAbsentPerDay (attendance db) = true ->
  Spec.oneNonAbsentPerDay (attendance (bulkRecordAttendance db user body).1) = true.
Proof.
  intros Hdate Hwin Hinv. unfold bulkRecordAttendance.
  destruct (attendanceList body) as [items|]; [|done].
  case_bool_decide; [done|].
  destruct (if bool_decide (role user = Account.doctor) then _ else _) as [[]|]; try done.
  pose proof (bulk_loop_preserves user (bulk_groupId body) (bulk_lectureDate body) items
                (db, {| successful := []; errors := [] |}) Hdate Hwin Hinv) as Hloop.
  destruct (fold_left _ items _) as [db' out]. exact Hloop.
Qed.

End Recording.

(** Worked instance: doctor [d2] is assigned to [g2] only; scanning the QR
    code of [s1] for [g1], or recording [s1] manually in [g1], is answered
    403 and stores nothing. *)
Lemma unassigned_doctor_forbidden_witness :
  AttendanceController.scanQRCode (Sample.day0 + 1000) Sample.store Sample.d2 Sample.scanS1
    = (Sample.store, Http.mkResponse 403 "You are not assigned to this group")
  /\ AttendanceController.recordAttendance Sample.store Sample.d2
       (AttendanceController.mkRecordBody "s1" "g1" Attendance.present Sample.day0)
    = (Sample.store, Http.mkResponse 403 "You are not assigned to this group").
Proof.
  apply (unassigned_doctor_forbidden (Sample.day0 + 1000) Sample.store Sample.d2
           (Attendance.mkDoctor ["g2"]) (Attendance.mkStudent "g1" true)
           "s1" "g1" Sample.payload Attendance.present Sample.day0).
  - reflexivity.
  - compute_done.
  - compute_done.
  - compute_done.
  - reflexivity.
  - reflexivity.
  - compute_done.
  - compute_done.
  - reflexivity.
  - reflexivity.
  - reflexivity.
Defined.

(** C2, on the code as it is. [endOfDay] is 23:59:59.000, so a record
    stamped in the last 999 ms of the day lies outside the window searched
    for duplicates: doctor [d1] scans the QR code of [s1] for [g1] at
    23:59:59.500 and again at 23:59:59.700 of 2024-03-01; both calls are
    answered 201 and two records are stored for that student, group and
    day. *)
Theorem scan_twice_last_second :
  let t1 := Sample.day0 + 86399500 in
  let t2 := Sample.day0 + 86399700 in
  let '(db1, r1) := AttendanceController.scanQRCode t1 Sample.store Sample.d1 Sample.scanS1 in
  let '(db2, r2) := AttendanceController.scanQRCode t2 db1 Sample.d1 Sample.scanS1 in
  Spec.dayOf t1 = Spec.dayOf t2
  /\ r1 = Http.mkResponse 201 "Attendance recorded successfully"
  /\ r2 = Http.mkResponse 201 "Attendance recorded successfully"
  /\ Spec.recordsFor (Attendance.attendance db2) "s1" "g1" (Spec.dayOf t1)
     = [Attendance.mkAttendance "s1" "g1" "d1" t1 Attendance.present Attendance.qr_scan;
        Attendance.mkAttendance "s1" "g1" "d1" t2 Attendance.present Attendance.qr_scan].
Proof. vm_compute. repeat split; reflexivity. Qed.

(** C3, on the code as it is. Starting from an empty attendance
    collection, two manual calls for [s1] in [g1] dated 23:59:59.500
    ([late]) and 23:59:59.600 ([present]) of 2024-03-01 are both answered
    201; neither the day window nor the unique index (keyed on the exact
    [lectureDate]) stops the second, and the reached store holds two
    non-absent records for one student, group and calendar day. *)
Theorem manual_twice_breaks_invariant :
  let b1 := AttendanceController.mkRecordBody "s1" "g1" Attendance.late
              (Sample.day0 + 86399500) in
  let b2 := AttendanceController.mkRecordBody "s1" "g1" Attendance.present
              (Sample.day0 + 86399600) in
  let '(db1, r1) := AttendanceController.recordAttendance Sample.store Sample.d1 b1 in
  let '(db2, r2) := AttendanceController.recordAttendance db1 Sample.d1 b2 in
  Spec.oneNonAbsentPerDay (Attendance.attendance Sample.store) = true
  /\ Http.status r1 = 201 /\ Http.status r2 = 201
  /\ length (Attendance.attendance db2) = 2%nat
  /\ Spec.oneNonAbsentPerDay (Attendance.attendance db2) = false.
Proof. vm_compute. repeat split; reflexivity. Qed.

(** C4, on the code as it is. The bulk loop checks only the duplicate
    window: called by an admin for group [g1], it stores a record for [s3]
    (a student of [g2]) and for ["ghost"] (no such student), which the
    single-record path answers 400 and 404; the entry with a status outside
    the enum and the repeated entry fail on their own, and the entries
    after them are still processed. *)
Theorem bulk_skips_student_checks :
  let item := AttendanceController.mkBulkItem in
  let body := AttendanceController.mkBulkBody "g1" (Sample.day0 + 1000)
                (Some [item "s3" (Attendance.Given Attendance.present);
                       item "s1" (Attendance.NotInEnum "here");
                       item "ghost" (Attendance.Given Attendance.late);
                       item "s1" (Attendance.Given Attendance.present);
                       item "s1" (Attendance.Given Attendance.present);
                       item "s2" Attendance.Missing]) in
  let '(db', resp) := AttendanceController.bulkRecordAttendance Sample.store Sample.root body in
  resp = AttendanceController.Processed
           (AttendanceController.mkBulkData
              ["s3"; "ghost"; "s1"; "s2"]
              [("s1", "Attendance validation failed: status: `here` is not a valid enum value for path `status`.");
               ("s1", "Attendance already recorded for this date")])
  /\ map Attendance.student (Attendance.attendance db') = ["s3"; "ghost"; "s1"; "s2"]
  /\ Http.status (AttendanceController.recordAttendance Sample.store Sample.root
                    (AttendanceController.mkRecordBody "s3" "g1" Attendance.present
                       (Sample.day0 + 1000))).2 = 400
  /\ Http.status (AttendanceController.recordAttendance Sample.store Sample.root
                    (AttendanceController.mkRecordBody "ghost" "g1" Attendance.late
                       (Sample.day0 + 1000))).2 = 404.
Proof. vm_compute. repeat split; reflexivity. Qed.

(** C5, on the code as it is. The manual path never reads [isActive]:
    an admin recording the disabled student [s2] of [g1] is answered 201
    and the record is stored, whereas scanning the QR code of [s2] is
    answered 400 "Student account is inactive". *)
Theorem manual_records_inactive_student :
  let body := AttendanceController.mkRecordBody "s2" "g1" Attendance.present
                (Sample.day0 + 1000) in
  let qr := QRService.mkPayload (Some "student_attendance") (Some "s2")
              (Js.JNumber Sample.day0) in
  Attendance.s_isActive <$> Attendance.students Sample.store !! "s2" = Some false
  /\ (AttendanceController.recordAttendance Sample.store Sample.root body).2
     = Http.mkResponse 201 "Attendance recorded successfully"
  /\ Attendance.attendance
       (AttendanceController.recordAttendance Sample.store Sample.root body).1
     = [Attendance.mkAttendance "s2" "g1" "a1" (Sample.day0 + 1000)
          Attendance.present Attendance.manual]
  /\ AttendanceController.scanQRCode (Sample.day0 + 1000) Sample.store Sample.root
       (AttendanceController.mkScanBody (Some (QRService.Json qr)) "g1")
     = (Sample.store, Http.mkResponse 400 "Student account is inactive").
Proof. vm_compute. repeat split; reflexivity. Qed.

(** ** Reporting *)

Section Percentages.
Import Js Attendance Reports.

Lemma countDocuments_nonneg (coll : list AttendanceDoc) (q : AttendanceDoc -> bool) :
  0 <= countDocuments coll q.
Proof. unfold countDocuments. lia. Qed.













End Percentages.


(** * Further properties of the code *)

(** ** Issuing, scanning and recording *)

Section IssueAndRecord.
Import Js Http Attendance AttendanceController.

(** An empty duplicate search for a date stamped no later than 23:59:59.000
    rules out a clash with the unique index. *)
Lemma findOne_None_no_violation (coll : list AttendanceDoc) (st gr dr : string)
    (date : Z) (s : Status) (by_ : RecordedBy) :
  findOne coll st gr (startOfDay date) (endOfDay date) = None ->
  date <= endOfDay date ->
  violatesIndex coll (mkAttendance st gr dr date s by_) = false.
Proof.
  intros Hnone Hwin. unfold violatesIndex.
  destruct (existsb _ coll) eqn:E; [|by rewrite andb_false_r].
  apply existsb_exists in E as (r' & Hin & Hr').
  apply andb_prop in Hr' as [_ Hkey]. unfold sameKey in Hkey. simpl in Hkey.
  apply andb_prop in Hkey as [Hkey Hd]. apply andb_prop in Hkey as [Hs Hg].
  apply bool_decide_eq_true_1 in Hs, Hg, Hd.
  destruct (findOne_is_Some coll st gr (startOfDay date) (endOfDay date) r')
    as [x Hx]; try done.
  - by apply list_elem_of_In.
  - rewrite Hd. split; [apply startOfDay_le | done].
  - congruence.
Qed.

(** No record of the student in the group on the day of [date]: the
    duplicate search is empty and the unique index is not hit. *)
Lemma free_day_no_duplicate (coll : list AttendanceDoc) (st gr dr : string)
    (date : Z) (s : Status) (by_ : RecordedBy) :
  (forall r, r ∈ coll -> student r = st -> group r = gr ->
             Spec.dayOf (lectureDate r) <> Spec.dayOf date) ->
  findOne coll st gr (startOfDay date) (endOfDay date) = None
  /\ violatesIndex coll (mkAttendance st gr dr date s by_) = false.
Proof.
  intros Hfree. split.
  - unfold findOne. destruct (List.find _ coll) as [r|] eqn:E; [|done].
    apply find_some in E as [Hin Hr].
    apply andb_prop in Hr as [Hr Hle]. apply andb_prop in Hr as [Hr Hge].
    apply andb_prop in Hr as [Hs Hg].
    apply bool_decide_eq_true_1 in Hs, Hg, Hge, Hle.
    apply list_elem_of_In in Hin. exfalso. apply (Hfree r Hin Hs Hg).
    unfold Spec.dayOf. unfold endOfDay, startOfDay in Hge, Hle.
    set (q := date / msPerDay) in *. unfold msPerDay in *. symmetry.
    apply Z.div_unique with (r := lectureDate r - q * 86400000); lia.
  - unfold violatesIndex.
    destruct (existsb _ coll) eqn:E; [|by rewrite andb_false_r].
    apply existsb_exists in E as (r' & Hin & Hr').
    apply andb_prop in Hr' as [_ Hkey]. unfold sameKey in Hkey. simpl in Hkey.
    apply andb_prop in Hkey as [Hkey Hd]. apply andb_prop in Hkey as [Hs Hg].
    apply bool_decide_eq_true_1 in Hs, Hg, Hd.
    apply list_elem_of_In in Hin. exfalso. apply (Hfree r' Hin Hs Hg). by rewrite Hd.
Qed.

Lemma allowed_passes (db : Store) (user : Caller) (gr : string) :
  Invariants.allowed db user gr ->
  (if bool_decide (role user = Account.doctor)
   then match assignedTo db user gr with
        | Throw e => Throw e
        | Return b => Return (negb b)
        end
   else Return false) = Return false.
Proof.
  intros Hal. case_bool_decide as Hrole; [|done].
  destruct (Hal Hrole) as (d & Hd & Hin). unfold assignedTo. rewrite Hd.
  by rewrite bool_decide_eq_true_2.
Qed.

(** X2. Scanning the code issued to an active student of group [gr], by
    an admin or by a doctor assigned to [gr], while the code is fresh and
    no record of the student in [gr] is stored for the day, stores exactly
    one [present] / [qr_scan] record stamped with the instant of the scan
    and answers 201; scanning again on the same calendar day is answered
    409 and stores nothing, provided the first scan was not stamped in the
    last 999 ms of the day. *)
Theorem scan_then_rescan (t0 t1 t2 : Z) (db : Store) (user : Caller)
    (sid gr : string) (st : StudentDoc) :
  students db !! sid = Some st ->
  s_isActive st = true ->
  s_group st = gr ->
  gr ∈ groups db ->
  gr ≠ "" ->
  Invariants.allowed db user gr ->
  t1 - t0 <= QRService.maxAge ->
  t2 - t0 <= QRService.maxAge ->
  (forall r, r ∈ attendance db -> student r = sid -> group r = gr ->
             Spec.dayOf (lectureDate r) <> Spec.dayOf t1) ->
  t1 <= endOfDay t1 ->
  Spec.dayOf t2 = Spec.dayOf t1 ->
  let body := mkScanBody (Some (QRIssue.generateStudentQRData t0 (Some sid))) gr in
  let db1 := {| students := students db; doctors := doctors db; groups := groups db;
                attendance := (attendance db
                               ++ [mkAttendance sid gr (id user) t1 present qr_scan])%list |} in
  scanQRCode t1 db user body
    = (db1, mkResponse 201 "Attendance recorded successfully")
  /\ scanQRCode t2 db1 user body
    = (db1, mkResponse 409 "Attendance already recorded for this student today").
Proof.
  intros Hst Hact Hgr Hex Hne Hal Hf1 Hf2 Hfree Hwin Hday body db1.
  assert (Hpre : forall t db', students db' = students db -> doctors db' = doctors db ->
            groups db' = groups db -> t - t0 <= QRService.maxAge ->
            scanQRCode t db' user body =
            match findOne (attendance db') sid gr (startOfDay t) (endOfDay t) with
            | Some _ => (db', mkResponse 409 "Attendance already recorded for this student today")
            | None =>
                match save db' sid gr (id user) t (Given present) qr_scan with
                | Throw _ => (db', mkResponse 500 "Error processing QR code scan")
                | Return (db'', _) => (db'', mkResponse 201 "Attendance recorded successfully")
                end
            end).
  { intros t db' Es Ed Eg Hfresh. unfold scanQRCode. simpl.
    rewrite (bool_decide_eq_false_2 (gr = "")) by done.
    rewrite (validateQRCode_integer t t0) by reflexivity.
    rewrite (bool_decide_eq_false_2 (QRService.maxAge < t - t0)) by lia.
    rewrite Es, Hst. simpl. rewrite Hact. simpl. rewrite Hgr, Eg.
    rewrite (bool_decide_eq_false_2 (gr ∉ groups db)) by (intros H; by apply H).
    rewrite (bool_decide_eq_false_2 (gr ≠ gr)) by (intros H; by apply H).
    pose proof (allowed_passes db user gr Hal) as Hpass.
    unfold assignedTo in *. rewrite Ed, Hpass. reflexivity. }
  split.
  - rewrite Hpre by done.
    destruct (free_day_no_duplicate (attendance db) sid gr (id user) t1 present qr_scan
                Hfree) as [Hnone Hviol].
    rewrite Hnone. unfold save. rewrite Hviol. reflexivity.
  - rewrite Hpre by done.
    destruct (same_day_same_window _ _ Hday) as [E1 E2].
    destruct (findOne_is_Some (attendance db1) sid gr (startOfDay t2) (endOfDay t2)
                (mkAttendance sid gr (id user) t1 present qr_scan)) as [x ->];
      try done.
    + subst db1. simpl. apply elem_of_app. right. by apply list_elem_of_singleton.
    + simpl. rewrite E1, E2. split; [apply startOfDay_le | done].
Qed.

(** X3. Manual recording of a student of group [gr] (enabled or not), by
    an admin or by a doctor assigned to [gr], on a calendar day for which
    no record of the student in [gr] is stored, stores exactly the
    requested record, tagged [manual] and signed by the caller, and
    answers 201. *)
Theorem record_on_free_day (db : Store) (user : Caller) (body : RecordBody)
    (st : StudentDoc) :
  students db !! studentId body = Some st ->
  s_group st = groupId body ->
  Invariants.allowed db user (groupId body) ->
  (forall r, r ∈ attendance db -> student r = studentId body -> group r = groupId body ->
             Spec.dayOf (lectureDate r) <> Spec.dayOf (rec_lectureDate body)) ->
  recordAttendance db user body
  = ({| students := students db; doctors := doctors db; groups := groups db;
        attendance := (attendance db
                       ++ [mkAttendance (studentId body) (groupId body) (id user)
                             (rec_lectureDate body) (rec_status body) manual])%list |},
     mkResponse 201 "Attendance recorded successfully").
Proof.
  intros Hst Hgr Hal Hfree. unfold recordAttendance. rewrite Hst, Hgr.
  rewrite (bool_decide_eq_false_2 (groupId body ≠ groupId body)) by (intros H; by apply H).
  rewrite (allowed_passes db user (groupId body) Hal).
  destruct (free_day_no_duplicate (attendance db) (studentId body) (groupId body)
              (id user) (rec_lectureDate body) (rec_status body) manual Hfree)
    as [Hnone Hviol].
  rewrite Hnone. unfold save. rewrite Hviol. reflexivity.
Qed.

End IssueAndRecord.

Section RecordingEffects.
Import Js Http Attendance AttendanceController.

(** X4. Whatever the request, [scanQRCode] leaves students, doctors and
    groups untouched; it either answers 201 and appends exactly one
    [present] / [qr_scan] record, stamped with the instant of the scan and
    signed by the caller, for an existing, active student of the requested
    group (to which a doctor caller is assigned), or answers another status
    and stores nothing. *)
Theorem scanQRCode_effect (now : Z) (db : Store) (user : Caller) (body : ScanBody) :
  let db' := (scanQRCode now db user body).1 in
  let resp := (scanQRCode now db user body).2 in
  students db' = students db /\ doctors db' = doctors db /\ groups db' = groups db
  /\ ((Http.status resp = 201
       /\ Invariants.allowed db user (scan_groupId body)
       /\ exists sid st,
            students db !! sid = Some st /\ s_isActive st = true
            /\ s_group st = scan_groupId body
            /\ attendance db' = (attendance db
                 ++ [mkAttendance sid (scan_groupId body) (id user) now present qr_scan])%list)
      \/ (Http.status resp <> 201 /\ attendance db' = attendance db)).
Proof.
  cbv zeta. unfold scanQRCode.
  destruct (qrData body); [|by repeat split; right].
  case_bool_decide; [by repeat split; right|].
  destruct (QRService.parseQRData _) as [p|]; [|by repeat split; right].
  destruct (QRService.validateQRCode _ _); [|by repeat split; right].
  destruct (QRService.studentId p) as [sid|]; simpl; [|by repeat split; right].
  destruct (students db !! sid) as [st|] eqn:Hst; simpl; [|by repeat split; right].
  destruct (s_isActive st) eqn:Hact; simpl; [|by repeat split; right].
  case_bool_decide; [by repeat split; right|].
  case_bool_decide as Hgr; [by repeat split; right|].
  assert (s_group st = scan_groupId body) as Hgr' by (by destruct (decide (s_group st = scan_groupId body))).
  assert (Hal : (if bool_decide (role user = Account.doctor)
                 then match assignedTo db user (scan_groupId body) with
                      | Throw e => Throw e
                      | Return b => Return (negb b)
                      end
                 else Return false) = Return false ->
                Invariants.allowed db user (scan_groupId body)).
  { intros Hpass Hrole. rewrite bool_decide_eq_true_2 in Hpass by done.
    unfold assignedTo in Hpass. destruct (doctors db !! id user) as [d|]; [|done].
    exists d. split; [done|]. injection Hpass as Hpass.
    apply negb_false_iff, bool_decide_eq_true_1 in Hpass. done. }
  destruct (if bool_decide (role user = Account.doctor) then _ else _) as [[]|];
    try by repeat split; right.
  destruct (findOne _ _ _ _ _); [by repeat split; right|].
  unfold save. destruct (violatesIndex _ _); simpl; [by repeat split; right|].
  repeat split. left. split; [done|]. split; [by apply Hal|]. by exists sid, st.
Qed.

(** X5. Whatever the request, [recordAttendance] leaves students, doctors
    and groups untouched; it either answers 201 and appends exactly the
    requested record, tagged [manual] and signed by the caller, for an
    existing student of the requested group (to which a doctor caller is
    assigned), or answers another status and stores nothing. *)
Theorem recordAttendance_effect (db : Store) (user : Caller) (body : RecordBody) :
  let db' := (recordAttendance db user body).1 in
  let resp := (recordAttendance db user body).2 in
  students db' = students db /\ doctors db' = doctors db /\ groups db' = groups db
  /\ ((Http.status resp = 201
       /\ Invariants.allowed db user (groupId body)
       /\ (exists st, students db !! studentId body = Some st
                      /\ s_group st = groupId body)
       /\ attendance db' = (attendance db
            ++ [mkAttendance (studentId body) (groupId body) (id user)
                  (rec_lectureDate body) (rec_status body) manual])%list)
      \/ (Http.status resp <> 201 /\ attendance db' = attendance db)).
Proof.
  cbv zeta. unfold recordAttendance.
  destruct (students db !! studentId body) as [st|] eqn:Hst; [|by repeat split; right].
  case_bool_decide as Hgr; [by repeat split; right|].
  assert (s_group st = groupId body) as Hgr' by (by destruct (decide (s_group st = groupId body))).
  assert (Hal : (if bool_decide (role user = Account.doctor)
                 then match assignedTo db user (groupId body) with
                      | Throw e => Throw e
                      | Return b => Return (negb b)
                      end
                 else Return false) = Return false ->
                Invariants.allowed db user (groupId body)).
  { intros Hpass Hrole. rewrite bool_decide_eq_true_2 in Hpass by done.
    unfold assignedTo in Hpass. destruct (doctors db !! id user) as [d|]; [|done].
    exists d. split; [done|]. injection Hpass as Hpass.
    apply negb_false_iff, bool_decide_eq_true_1 in Hpass. done. }
  destruct (if bool_decide (role user = Account.doctor) then _ else _) as [[]|];
    try by repeat split; right.
  destruct (findOne _ _ _ _ _); [by repeat split; right|].
  unfold save. destruct (violatesIndex _ _); simpl; [by repeat split; right|].
  repeat split. left. split; [done|]. split; [by apply Hal|]. split; [by exists st | done].
Qed.

End RecordingEffects.

Section BulkAndIndex.
Import Js Http Attendance AttendanceController.

(** X7. For a lecture date stamped no later than 23:59:59.000 of its day,
    no student is listed twice among the [successful] entries of one bulk
    call: a repeated entry is reported as an error. *)
Theorem bulk_successful_NoDup (db : Store) (user : Caller) (body : BulkBody) :
  bulk_lectureDate body <= endOfDay (bulk_lectureDate body) ->
  match (bulkRecordAttendance db user body).2 with
  | Rejected _ => True
  | Processed data => NoDup (successful data)
  end.
Proof.
  intros Hwin. unfold bulkRecordAttendance.
  destruct (attendanceList body) as [items|]; [|done].
  case_bool_decide; [done|].
  destruct (if bool_decide (role user = Account.doctor) then _ else _) as [[]|]; try done.
  set (gr := bulk_groupId body). set (date := bulk_lectureDate body) in *.
  set (inv := fun acc : Store * BulkData =>
         NoDup (successful acc.2)
         /\ forall s, s ∈ successful acc.2 ->
              exists r, r ∈ attendance acc.1 /\ student r = s /\ group r = gr
                        /\ lectureDate r = date).
  assert (Hloop : forall acc, inv acc -> inv (fold_left (bulkItem user gr date) items acc)).
  { induction items as [|item items IH]; intros [db0 out0] Hinv; [done|].
    cbn [fold_left]. apply IH. destruct Hinv as [Hnd Hrec]. simpl in Hnd, Hrec.
    unfold bulkItem.
    destruct (findOne _ _ _ _ _) eqn:Hnone; [done|].
    unfold save.
    assert (Hfresh : item_studentId item ∉ successful out0).
    { intros Hin. destruct (Hrec _ Hin) as (r & Hr & Hs & Hg & Hd).
      destruct (findOne_is_Some (attendance db0) (item_studentId item) gr
                  (startOfDay date) (endOfDay date) r) as [x Hx]; try done.
      - rewrite Hd. split; [apply startOfDay_le | done].
      - congruence. }
    destruct (item_status item) as [given| |other];
      try destruct (violatesIndex _ _); try done;
      (split; simpl;
       [ apply NoDup_app; split; [done|]; split;
           [ by intros x Hx ->%list_elem_of_singleton | apply NoDup_singleton ]
       | intros s [Hs | ->%list_elem_of_singleton]%elem_of_app;
           [ destruct (Hrec s Hs) as (r & Hr & ?); exists r; split; [|done];
             apply elem_of_app; by left
           | eexists; split; [apply elem_of_app; right; by apply list_elem_of_singleton|];
             done ] ]). }
  specialize (Hloop (db, {| successful := []; errors := [] |})).
  destruct (fold_left _ items _) as [db' out]. apply Hloop.
  split; simpl; [apply NoDup_nil_2 | by intros s Hs%elem_of_nil].
Qed.

(** X8. A doctor whose [assignedGroups] does not contain the requested
    group has the whole bulk call refused with 403, whatever the list
    holds, and nothing is stored. *)
Theorem bulk_unassigned_forbidden (db : Store) (user : Caller) (body : BulkBody)
    (d : DoctorDoc) (items : list BulkItem) :
  role user = Account.doctor ->
  doctors db !! id user = Some d ->
  bulk_groupId body ∉ assignedGroups d ->
  bulk_groupId body ≠ "" ->
  attendanceList body = Some items ->
  bulkRecordAttendance db user body
  = (db, Rejected (mkResponse 403 "You are not assigned to this group")).
Proof.
  intros Hrole Hdoc Hnot Hne Hlist. unfold bulkRecordAttendance.
  rewrite Hlist. rewrite (bool_decide_eq_false_2 _ Hne).
  rewrite (bool_decide_eq_true_2 _ Hrole). unfold assignedTo. rewrite Hdoc.
  by rewrite (bool_decide_eq_false_2 _ Hnot).
Qed.

End BulkAndIndex.

(** Worked instance: [d1] scans the code of [s1], issued at midnight, one
    second and again two seconds later. *)
Lemma scan_then_rescan_witness :
  let body := AttendanceController.mkScanBody
                (Some (QRIssue.generateStudentQRData Sample.day0 (Some "s1"))) "g1" in
  let db1 := Attendance.mkStore (Attendance.students Sample.store)
               (Attendance.doctors Sample.store) (Attendance.groups Sample.store)
               [Attendance.mkAttendance "s1" "g1" "d1" (Sample.day0 + 1000)
                  Attendance.present Attendance.qr_scan] in
  AttendanceController.scanQRCode (Sample.day0 + 1000) Sample.store Sample.d1 body
    = (db1, Http.mkResponse 201 "Attendance recorded successfully")
  /\ AttendanceController.scanQRCode (Sample.day0 + 2000) db1 Sample.d1 body
    = (db1, Http.mkResponse 409 "Attendance already recorded for this student today").
Proof.
  apply (scan_then_rescan Sample.day0 (Sample.day0 + 1000) (Sample.day0 + 2000)
           Sample.store Sample.d1 "s1" "g1" (Attendance.mkStudent "g1" true)).
  - compute_done.
  - reflexivity.
  - reflexivity.
  - compute_done.
  - compute_done.
  - intros _. exists (Attendance.mkDoctor ["g1"]). split; compute_done.
  - compute_done.
  - compute_done.
  - intros r Hr. by apply elem_of_nil in Hr.
  - compute_done.
  - reflexivity.
Defined.

(** Worked instance: the admin records the disabled student [s2] as
    [late] on an empty collection. *)
Lemma record_on_free_day_witness :
  AttendanceController.recordAttendance Sample.store Sample.root
    (AttendanceController.mkRecordBody "s2" "g1" Attendance.late (Sample.day0 + 1000))
  = (Attendance.mkStore (Attendance.students Sample.store)
       (Attendance.doctors Sample.store) (Attendance.groups Sample.store)
       [Attendance.mkAttendance "s2" "g1" "a1" (Sample.day0 + 1000)
          Attendance.late Attendance.manual],
     Http.mkResponse 201 "Attendance recorded successfully").
Proof.
  apply (record_on_free_day Sample.store Sample.root
           (AttendanceController.mkRecordBody "s2" "g1" Attendance.late (Sample.day0 + 1000))
           (Attendance.mkStudent "g1" false)).
  - compute_done.
  - reflexivity.
  - intros Hrole. discriminate Hrole.
  - intros r Hr. by apply elem_of_nil in Hr.
Defined.

(** Worked instance: [s1] listed three times in one bulk call. *)
Lemma bulk_successful_NoDup_witness :
  let item := AttendanceController.mkBulkItem in
  let body := AttendanceController.mkBulkBody "g1" (Sample.day0 + 1000)
                (Some [item "s1" (Attendance.Given Attendance.absent);
                       item "s1" (Attendance.Given Attendance.present);
                       item "s1" Attendance.Missing]) in
  Sample.day0 + 1000 <= Attendance.endOfDay (Sample.day0 + 1000)
  /\ match (AttendanceController.bulkRecordAttendance Sample.store Sample.d1 body).2 with
     | AttendanceController.Rejected _ => True
     | AttendanceController.Processed data => NoDup (AttendanceController.successful data)
     end.
Proof.
  intros item body.
  assert (Hwin : Sample.day0 + 1000 <= Attendance.endOfDay (Sample.day0 + 1000))
    by compute_done.
  split; [exact Hwin|].
  exact (bulk_successful_NoDup Sample.store Sample.d1 body Hwin).
Defined.

(** Worked instance: [d2], assigned to [g2] only, sends a bulk list for
    [g1]. *)
Lemma bulk_unassigned_forbidden_witness :
  AttendanceController.bulkRecordAttendance Sample.store Sample.d2
    (AttendanceController.mkBulkBody "g1" Sample.day0
       (Some [AttendanceController.mkBulkItem "s1" (Attendance.Given Attendance.present)]))
  = (Sample.store,
     AttendanceController.Rejected
       (Http.mkResponse 403 "You are not assigned to this group")).
Proof.
  apply (bulk_unassigned_forbidden Sample.store Sample.d2 _ (Attendance.mkDoctor ["g2"])
           [AttendanceController.mkBulkItem "s1" (Attendance.Given Attendance.present)]).
  - reflexivity.
  - compute_done.
  - compute_done.
  - compute_done.
  - reflexivity.
Defined.

(** ** Student deletion *)

Section Deletion.
Import Js Http Attendance AttendanceController.

Lemma existsb_filter_false {A} (f g : A -> bool) (l : list A) :
  existsb f l = false -> existsb f (List.filter g l) = false.
Proof.
  induction l as [|a l IH]; simpl; [done|].
  intros [Ha Hl]%orb_false_elim. destruct (g a); simpl; [|by apply IH].
  by rewrite Ha, IH.
Qed.

Lemma oneNonAbsentPerDay_filter (g : AttendanceDoc -> bool) (coll : list AttendanceDoc) :
  Spec.oneNonAbsentPerDay coll = true ->
  Spec.oneNonAbsentPerDay (List.filter g coll) = true.
Proof.
  induction coll as [|a coll IH]; simpl; [done|].
  intros [Ha Hrest]%andb_prop. destruct (g a); simpl; [|by apply IH].
  rewrite IH by done. apply negb_true_iff in Ha.
  by rewrite (existsb_filter_false _ g _ Ha).
Qed.

Lemma uniqueIndex_filter (g : AttendanceDoc -> bool) (coll : list AttendanceDoc) :
  Invariants.uniqueIndex coll = true ->
  Invariants.uniqueIndex (List.filter g coll) = true.
Proof.
  induction coll as [|a coll IH]; simpl; [done|].
  intros [Ha Hrest]%andb_prop. destruct (g a); simpl; [|by apply IH].
  rewrite IH by done. apply negb_true_iff in Ha.
  destruct (indexed a); simpl in *; [|done].
  by rewrite (existsb_filter_false _ g _ Ha).
Qed.

(** X11. Deleting an existing student answers 200, removes the student
    and exactly the attendance records of that student (the others stay,
    in order), and leaves doctors, groups and the other students as they
    are; afterwards a scan of a code issued to that student is answered
    404 "Student not found". *)
Theorem deleteStudent_cascade (db : Store) (sid : string) (st : StudentDoc) :
  students db !! sid = Some st ->
  let db' := (StudentController.deleteStudent db sid).1 in
  (StudentController.deleteStudent db sid).2
    = mkResponse 200 "Student deleted successfully"
  /\ students db' !! sid = None
  /\ (forall j, j ≠ sid -> students db' !! j = students db !! j)
  /\ doctors db' = doctors db /\ groups db' = groups db
  /\ attendance db' = List.filter (fun r => bool_decide (student r ≠ sid)) (attendance db)
  /\ (forall r, r ∈ attendance db' <-> r ∈ attendance db /\ student r ≠ sid)
  /\ (forall now t0 user gr,
        gr ≠ "" -> now - t0 <= QRService.maxAge ->
        scanQRCode now db' user
          (mkScanBody (Some (QRIssue.generateStudentQRData t0 (Some sid))) gr)
        = (db', mkResponse 404 "Student not found")).
Proof.
  intros Hst db'. subst db'. unfold StudentController.deleteStudent. rewrite Hst. simpl.
  split; [done|]. split; [apply lookup_delete_eq|].
  split; [intros j Hj; by apply lookup_delete_ne|].
  split; [done|]. split; [done|]. split; [done|]. split.
  - intros r. rewrite !list_elem_of_In, filter_In, bool_decide_eq_true. done.
  - intros now t0 user gr Hgr Hfresh. unfold scanQRCode. simpl.
    rewrite (bool_decide_eq_false_2 (gr = "")) by done.
    rewrite (validateQRCode_integer now t0) by reflexivity.
    rewrite (bool_decide_eq_false_2 (QRService.maxAge < now - t0)) by lia.
    by rewrite lookup_delete_eq.
Qed.

(** X12. Deleting a student keeps both attendance invariants: at most
    one non-absent record per student, group and day, and the uniqueness
    behind the partial index; a missing student is answered 404 and
    nothing is deleted. *)
Theorem deleteStudent_keeps_invariants (db : Store) (sid : string) :
  (Spec.oneNonAbsentPerDay (attendance db) = true ->
   Spec.oneNonAbsentPerDay (attendance (StudentController.deleteStudent db sid).1) = true)
  /\ (Invariants.uniqueIndex (attendance db) = true ->
      Invariants.uniqueIndex (attendance (StudentController.deleteStudent db sid).1) = true)
  /\ (students db !! sid = None ->
      StudentController.deleteStudent db sid = (db, mkResponse 404 "Student not found")).
Proof.
  unfold StudentController.deleteStudent.
  destruct (students db !! sid); simpl; repeat split; try done.
  - apply oneNonAbsentPerDay_filter.
  - apply uniqueIndex_filter.
Qed.

End Deletion.

(** Worked instance: deleting [s1] after one scan. *)
Lemma deleteStudent_cascade_witness :
  let db1 := (AttendanceController.scanQRCode (Sample.day0 + 1000) Sample.store
                Sample.d1 Sample.scanS1).1 in
  Attendance.attendance db1
    = [Attendance.mkAttendance "s1" "g1" "d1" (Sample.day0 + 1000)
         Attendance.present Attendance.qr_scan]
  /\ Attendance.attendance (StudentController.deleteStudent db1 "s1").1 = []
  /\ AttendanceController.scanQRCode (Sample.day0 + 2000)
       (StudentController.deleteStudent db1 "s1").1 Sample.d1
       (AttendanceController.mkScanBody
          (Some (QRIssue.generateStudentQRData Sample.day0 (Some "s1"))) "g1")
     = ((StudentController.deleteStudent db1 "s1").1,
        Http.mkResponse 404 "Student not found").
Proof.
  intros db1.
  assert (Hst : Attendance.students db1 !! "s1" = Some (Attendance.mkStudent "g1" true))
    by compute_done.
  destruct (deleteStudent_cascade db1 "s1" _ Hst) as (_ & _ & _ & _ & _ & Hatt & _ & Hscan).
  split; [reflexivity|]. split.
  - rewrite Hatt. reflexivity.
  - apply Hscan; compute_done.
Defined.

(** Worked instance: deleting [s3], then an unknown student, with the
    three-record collection. *)
Lemma deleteStudent_keeps_invariants_witness :
  let db := Attendance.mkStore (Attendance.students Sample.store)
              (Attendance.doctors Sample.store) (Attendance.groups Sample.store)
              Sample.oneOfThree in
  Spec.oneNonAbsentPerDay
    (Attendance.attendance (StudentController.deleteStudent db "s3").1) = true
  /\ StudentController.deleteStudent db "ghost"
     = (db, Http.mkResponse 404 "Student not found").
Proof.
  intros db.
  destruct (deleteStudent_keeps_invariants db "s3") as (H1 & _ & _).
  destruct (deleteStudent_keeps_invariants db "ghost") as (_ & _ & H3).
  split; [apply H1; reflexivity | apply H3; compute_done].
Defined.

(** ** Login under the schemas of models/ *)

Section StatelessLogin.
Import Js Account Mongoose AuthService Http AuthRoutes.

Variable bcrypt_compare : string -> string -> bool.

Lemma NoDup_map_inj {A B} (f : A -> B) (l : list A) (a b : A) :
  NoDup (map f l) -> a ∈ l -> b ∈ l -> f a = f b -> a = b.
Proof.
  induction l as [|x l IH]; simpl; intros Hnd Ha Hb Hf.
  - by apply elem_of_nil in Ha.
  - apply NoDup_cons in Hnd as [Hx Hnd].
    apply elem_of_cons in Ha as [->|Ha], Hb as [->|Hb]; try done.
    + exfalso. apply Hx. rewrite Hf. by apply list_elem_of_fmap_2.
    + exfalso. apply Hx. rewrite <- Hf. by apply list_elem_of_fmap_2.
    + by apply IH.
Qed.

Lemma plain_eta (u : User) :
  Invariants.plain u ->
  u = mkUser (_id u) (email u) (password u) (role u) (isActive u) None None None.
Proof. destruct u; intros (H1 & H2 & H3); simpl in *; by subst. Qed.

(** Under a schema without the lockout paths a plain document is loaded
    as it is stored. *)
Lemma strict_plain (m : Model) (u : User) :
  Invariants.wellStored m -> u ∈ docs m -> strict m u = u.
Proof.
  intros (H1 & H2 & H3 & _ & Hplain) Hu. unfold strict, declared.
  rewrite !bool_decide_eq_false_2 by done.
  symmetry. apply plain_eta. by eapply Forall_forall in Hplain.
Qed.

(** Under a schema without the lockout paths, saving a loaded document
    whose declared fields are untouched writes nothing. *)
Lemma save_writes_nothing (m : Model) (u : User) (a l t : option Z) :
  Invariants.wellStored m -> u ∈ docs m ->
  save m (mkUser (_id u) (email u) (password u) (role u) (isActive u) a l t) = m.
Proof.
  intros (H1 & H2 & H3 & Hnd & Hplain) Hu. unfold save, persist, declared. simpl.
  rewrite !(bool_decide_eq_false_2 (_ ∈ paths m)) by done.
  destruct m as [ps ds]. simpl in *. f_equal.
  rewrite <- (map_id ds) at 2. apply map_ext_in. intros d Hd.
  apply list_elem_of_In in Hd. case_bool_decide as Hid; [|done].
  assert (d = u) as -> by (by apply (NoDup_map_inj _id ds)).
  by destruct u.
Qed.

Lemma findById_found (m : Model) (u : User) :
  Invariants.wellStored m -> u ∈ docs m -> findById m (_id u) = Some u.
Proof.
  intros Hwell Hu. pose proof Hwell as (_ & _ & _ & Hnd & _). unfold findById.
  destruct (List.find _ (docs m)) as [d|] eqn:E.
  - apply find_some in E as [Hd Hid]. apply bool_decide_eq_true_1 in Hid.
    apply list_elem_of_In in Hd. simpl. f_equal.
    assert (d = u) as -> by (by apply (NoDup_map_inj _id (docs m))).
    by apply strict_plain.
  - apply list_elem_of_In in Hu. pose proof (find_none _ _ E u Hu) as Hf. simpl in Hf.
    by rewrite bool_decide_eq_true_2 in Hf.
Qed.

Lemma findUser_member (db : Models) (e : string) (u : User) (k : ModelName) :
  (forall k, Invariants.wellStored (getModel db k)) ->
  findUser db e = Some (u, k) -> u ∈ docs (getModel db k).
Proof.
  intros Hwell H. apply findUser_loaded in H as (d & Hd & ->).
  by rewrite strict_plain.
Qed.

Lemma setModel_getModel (db : Models) (k : ModelName) :
  setModel db k (getModel db k) = db.
Proof. by destruct db, k. Qed.

(** X13. With the schemas of models/ (none declares [loginAttempts],
    [lockUntil] or [lastLoginAt]) and collections of plain documents with
    unique ids, [POST /login] never changes any collection and never
    answers 423; it answers 200 exactly when the e-mail belongs to an
    active account whose stored hash matches the password, whatever the
    earlier logins were. *)
Theorem login_is_stateless (now : Z) (db : Models) (e pw : string) :
  paths (Student db) = studentSchema ->
  paths (Doctor db) = doctorSchema ->
  paths (Admin db) = adminSchema ->
  (forall k, NoDup (map _id (docs (getModel db k)))
             /\ Forall Invariants.plain (docs (getModel db k))) ->
  (login bcrypt_compare now db e pw).1 = db
  /\ status (login bcrypt_compare now db e pw).2 <> 423
  /\ (status (login bcrypt_compare now db e pw).2 = 200
      <-> exists user k, findUser db e = Some (user, k) /\ isActive user = true
                         /\ bcrypt_compare pw (password user) = true).
Proof.
  intros Hs Hd Ha Hstored.
  assert (Hwell : forall k, Invariants.wellStored (getModel db k)).
  { intros k. destruct (Hstored k) as [Hnd Hpl].
    unfold Invariants.wellStored.
    destruct k; simpl; rewrite ?Hs, ?Hd, ?Ha;
      (split; [compute_done|]; split; [compute_done|]; split; [compute_done|]; done). }
  unfold login. destruct (findUser db e) as [[user k]|] eqn:Hfind.
  2:{ simpl. split; [done|]. split; [done|]. split; [done|].
      intros (? & ? & [=] & _). }
  pose proof (findUser_member _ _ _ _ Hwell Hfind) as Hin.
  assert (Hplain : Invariants.plain user).
  { destruct (Hstored k) as [_ Hpl]. by eapply Forall_forall in Hpl. }
  assert (Hfree : isAccountLocked now user = false).
  { unfold isAccountLocked. destruct Hplain as (-> & _). reflexivity. }
  rewrite Hfree.
  destruct (isActive user) eqn:Hact; simpl.
  2:{ split; [done|]. split; [done|]. split; [done|].
      intros (u' & k' & [= <- <-] & Hact' & _). congruence. }
  unfold comparePassword.
  destruct (bcrypt_compare pw (password user)) eqn:Hcmp; simpl.
  - unfold handleSuccessfulLogin. rewrite (findById_found _ _ (Hwell k) Hin).
    rewrite (save_writes_nothing _ _ _ _ _ (Hwell k) Hin), setModel_getModel.
    split; [done|]. split; [done|]. split; [|done].
    intros _. by exists user, k.
  - unfold handleFailedLogin. rewrite (findById_found _ _ (Hwell k) Hin).
    rewrite (save_writes_nothing _ _ _ _ _ (Hwell k) Hin), setModel_getModel.
    split; [done|]. split; [done|]. split; [done|].
    intros (u' & k' & [= <- <-] & _ & Hcmp'). congruence.
Qed.

End StatelessLogin.

(** Worked instance: the sample account, a wrong password. *)
Lemma login_is_stateless_witness :
  (AuthRoutes.login Sample.compare Sample.day0
     (Sample.models Mongoose.studentSchema Sample.account) "s1@uni.edu" "guess").1
  = Sample.models Mongoose.studentSchema Sample.account.
Proof.
  apply (login_is_stateless Sample.compare Sample.day0
           (Sample.models Mongoose.studentSchema Sample.account) "s1@uni.edu" "guess");
    try reflexivity.
  intros k. destruct k; simpl; split;
    repeat constructor; try (by intros ?%elem_of_nil).
Defined.

(** ** Password rules *)

Section Passwords.
Import Stdlib.Strings.Ascii PasswordPolicy.

Local Abbreviation len := Stdlib.Strings.String.length.
Local Abbreviation classes := Invariants.classes.

Lemma accepted_password_classes (pw : string) :
  isValid (validatePassword pw) = true ->
  (6 <= len pw)%nat /\ test isUpper pw = true /\ test isLower pw = true
  /\ test isDigit pw = true /\ errors (validatePassword pw) = [].
Proof.
  unfold validatePassword.
  cbn [isValid errors strength]. intros Hv%bool_decide_eq_true_1. revert Hv.
  destruct (len pw <? 6)%nat eqn:E6, (test isUpper pw), (test isLower pw),
    (test isDigit pw); simpl; intros Hv; try discriminate Hv;
    apply Nat.ltb_ge in E6; repeat split; done.
Qed.

(** X14. A password that [validatePassword] accepts has at least 6
    characters, an uppercase letter, a lowercase letter and a digit, an
    empty error list, and is never rated [weak]. *)
Theorem valid_password_not_weak (pw : string) :
  isValid (validatePassword pw) = true ->
  (6 <= len pw)%nat /\ test isUpper pw = true /\ test isLower pw = true
  /\ test isDigit pw = true /\ errors (validatePassword pw) = []
  /\ strength (validatePassword pw) <> weak.
Proof.
  intros Hv. destruct (accepted_password_classes pw Hv) as (H6 & Hu & Hl & Hd & He).
  repeat split; try done.
  unfold validatePassword, calculatePasswordStrength. cbn [strength].
  rewrite Hu, Hl, Hd.
  destruct (8 <=? len pw)%nat, (12 <=? len pw)%nat,
    (test (fun c => negb (isUpper c || isLower c || isDigit c)) pw);
    simpl; discriminate.
Qed.

(** X15. [calculatePasswordStrength] rates a password [strong] exactly
    when it has at least 12 characters and three of the four character
    classes, or at least 8 characters and all four; so no password shorter
    than 8 characters is [strong]. *)
Theorem strong_password_iff (pw : string) :
  (calculatePasswordStrength pw = strong
   <-> (12 <= len pw /\ 3 <= classes pw)%nat \/ (8 <= len pw /\ classes pw = 4)%nat)
  /\ (calculatePasswordStrength pw = strong -> (8 <= len pw)%nat).
Proof.
  assert (H : calculatePasswordStrength pw = strong
   <-> (12 <= len pw /\ 3 <= classes pw)%nat \/ (8 <= len pw /\ classes pw = 4)%nat).
  { unfold calculatePasswordStrength, Invariants.classes.
    destruct (Nat.leb_spec 8 (len pw)), (Nat.leb_spec 12 (len pw)),
      (test isLower pw), (test isUpper pw), (test isDigit pw),
      (test (fun c => negb (isUpper c || isLower c || isDigit c)) pw);
      simpl; split; try discriminate; try (intros _; lia); try (intros; exfalso; lia);
      done. }
  split; [exact H|]. intros Hs. apply H in Hs. lia.
Qed.

(** X16. A password that [validatePasswordStrength] accepts has at least
    8 characters and is rated [strong]; and every password of at least 8
    characters that [AuthService.validatePassword] accepts is accepted by
    [validatePasswordStrength] too. *)
Theorem utils_valid_is_strong (pw : string) :
  (AuthUtils.isValid (AuthUtils.validatePasswordStrength pw) = true ->
   (8 <= len pw)%nat
   /\ (4 <= AuthUtils.score (AuthUtils.validatePasswordStrength pw) <= 5)%nat
   /\ AuthUtils.strength (AuthUtils.validatePasswordStrength pw) = strong)
  /\ (isValid (validatePassword pw) = true -> (8 <= len pw)%nat ->
      AuthUtils.isValid (AuthUtils.validatePasswordStrength pw) = true).
Proof.
  split.
  - unfold AuthUtils.validatePasswordStrength.
    cbn [AuthUtils.isValid AuthUtils.score AuthUtils.strength AuthUtils.minLength
         AuthUtils.hasUpperCase AuthUtils.hasLowerCase AuthUtils.hasNumbers
         AuthUtils.hasSpecialChar].
    destruct (8 <=? len pw)%nat eqn:E8, (test isUpper pw), (test isLower pw),
      (test isDigit pw), (test AuthUtils.isSpecial pw); simpl;
      try discriminate; intros _; apply Nat.leb_le in E8; repeat split; try done; lia.
  - intros Hv Hlen. apply accepted_password_classes in Hv as (_ & Hu & Hl & Hd & _).
    unfold AuthUtils.validatePasswordStrength.
    cbn [AuthUtils.isValid AuthUtils.minLength
         AuthUtils.hasUpperCase AuthUtils.hasLowerCase AuthUtils.hasNumbers
         AuthUtils.hasSpecialChar].
    rewrite Hu, Hl, Hd. apply Nat.leb_le in Hlen. rewrite Hlen.
    destruct (test AuthUtils.isSpecial pw); reflexivity.
Qed.








End Passwords.

(** Worked instance: "Secret1" is valid and rated [medium]. *)
Lemma valid_password_not_weak_witness :
  PasswordPolicy.isValid (PasswordPolicy.validatePassword "Secret1") = true
  /\ PasswordPolicy.strength (PasswordPolicy.validatePassword "Secret1")
     <> PasswordPolicy.weak.
Proof.
  assert (Hv : PasswordPolicy.isValid (PasswordPolicy.validatePassword "Secret1") = true)
    by reflexivity.
  split; [exact Hv|].
  by destruct (valid_password_not_weak "Secret1" Hv) as (_ & _ & _ & _ & _ & Hs).
Defined.

(** Worked instance: twelve characters of three classes are [strong],
    although [validatePassword] rejects them for the missing digit. *)
Lemma strong_password_iff_witness :
  PasswordPolicy.calculatePasswordStrength "Abcdefghijk!" = PasswordPolicy.strong
  /\ PasswordPolicy.isValid (PasswordPolicy.validatePassword "Abcdefghijk!") = false.
Proof.
  split; [|reflexivity].
  apply (strong_password_iff "Abcdefghijk!"). left. split; vm_compute; lia.
Defined.

(** Worked instance: "Secret12" passes both validators. *)
Lemma utils_valid_is_strong_witness :
  AuthUtils.isValid (AuthUtils.validatePasswordStrength "Secret12") = true
  /\ AuthUtils.strength (AuthUtils.validatePasswordStrength "Secret12")
     = PasswordPolicy.strong.
Proof.
  destruct (utils_valid_is_strong "Secret12") as [Hstrong Hcross].
  assert (Hv : AuthUtils.isValid (AuthUtils.validatePasswordStrength "Secret12") = true).
  { apply Hcross; [reflexivity | vm_compute; lia]. }
  split; [exact Hv|]. by destruct (Hstrong Hv) as (_ & _ & Hs).
Defined.


(** ** Totals and bounds of the reports *)

Section ReportBounds.
Import Js Attendance Reports.



Lemma count_by_status (coll : list AttendanceDoc) (q : AttendanceDoc -> bool) :
  countDocuments coll q
  = Totals.count coll q present + Totals.count coll q absent
    + Totals.count coll q late + Totals.count coll q excused.
Proof.
  unfold Totals.count, countDocuments.
  induction coll as [|a coll IH]; simpl; [done|].
  destruct (q a); simpl; [|exact IH].
  destruct (status a); simpl; lia.
Qed.

(** X19. The totals of the statistics endpoint add up: for every
    collection and filter, [total] is the number of matching records and
    equals [present + absent + late + excused], each count being at least
    0 and at most [total]. *)
Theorem totalStats_add_up (coll : list AttendanceDoc) (matchQuery : AttendanceDoc -> bool) :
  let res := Totals.totalStats coll matchQuery in
  Totals.total res = countDocuments coll matchQuery
  /\ Totals.total res
     = Totals.present res + Totals.absent res + Totals.late res + Totals.excused res
  /\ 0 <= Totals.present res /\ 0 <= Totals.absent res
  /\ 0 <= Totals.late res /\ 0 <= Totals.excused res.
Proof.
  cbv zeta. unfold Totals.totalStats.
  case_bool_decide as Hpos; simpl.
  - split; [done|]. split; [apply count_by_status|].
    unfold Totals.count, countDocuments. lia.
  - unfold countDocuments. split; [lia | done].
Qed.

(** X20. The per-student pipeline of the model never divides by zero:
    it returns one row per student with a matching record, no student
    twice, and every row counts at least one record, at least as many as
    its [present], [absent] and [late] together. *)
Theorem model_stats_total (coll : list AttendanceDoc) (filters : AttendanceDoc -> bool) :
  exists rows,
    Totals.getAttendanceStats coll filters = Return rows
    /\ map Totals._id rows
       = remove_dups (map student (List.filter filters coll))
    /\ NoDup (map Totals._id rows)
    /\ Forall (fun row => 1 <= Totals.row_total row
                          /\ 0 <= Totals.row_present row
                          /\ 0 <= Totals.row_absent row
                          /\ 0 <= Totals.row_late row
                          /\ Totals.row_present row + Totals.row_absent row
                             + Totals.row_late row <= Totals.row_total row) rows.
Proof.
  unfold Totals.getAttendanceStats.
  set (ids := remove_dups (map student (List.filter filters coll))).
  assert (Hids : forall s, s ∈ ids -> exists r, r ∈ coll /\ filters r = true /\ student r = s).
  { intros s Hs. subst ids. apply elem_of_remove_dups, list_elem_of_fmap in Hs
      as (r & -> & Hr).
    apply list_elem_of_In, filter_In in Hr as [Hr Hf]. exists r.
    split; [by apply list_elem_of_In | done]. }
  assert (Hnd : NoDup ids) by apply NoDup_remove_dups.
  clearbody ids.
  assert (Hpos : forall s, s ∈ ids ->
            1 <= countDocuments coll
                   (fun r => filters r && bool_decide (student r = s))).
  { intros s Hs. destruct (Hids s Hs) as (r & Hr & Hf & Hst).
    unfold countDocuments.
    assert (In r (List.filter (fun r => filters r && bool_decide (student r = s)) coll)).
    { apply filter_In. split; [by apply list_elem_of_In|].
      by rewrite Hf, bool_decide_eq_true_2. }
    destruct (List.filter _ coll); [done | simpl; lia]. }
  clear Hids. induction ids as [|s ids IH]; simpl.
  - exists []. repeat split; constructor.
  - apply NoDup_cons in Hnd as [Hs Hnd].
    destruct IH as (rows & -> & Hmap & Hnd' & Hall); [done | |].
    { intros s' Hs'. apply Hpos. by right. }
    specialize (Hpos s (list_elem_of_here _ _)).
    rewrite count_by_status in Hpos.
    unfold Totals.divide. rewrite bool_decide_eq_false_2 by lia.
    eexists. split; [reflexivity|]. simpl. rewrite Hmap.
    split; [done|]. split; [by apply NoDup_cons|].
    constructor; [|done]. simpl.
    unfold Totals.count, countDocuments in *. lia.
Qed.

End ReportBounds.

(** ** Editing attendance records *)

Section Editing.
Import Js Http Attendance AttendanceEdit.

Lemma findById_filter_ne (coll : list (string * AttendanceDoc)) (id j : string) :
  j ≠ id ->
  findById (List.filter (fun d => bool_decide (d.1 ≠ id)) coll) j = findById coll j.
Proof.
  intros Hj. unfold findById. f_equal.
  induction coll as [|[i r] coll IH]; simpl; [done|].
  case_bool_decide as Hi; simpl.
  - case_bool_decide; [done | exact IH].
  - rewrite bool_decide_eq_false_2 by congruence. exact IH.
Qed.

Lemma findById_filter_eq (coll : list (string * AttendanceDoc)) (id : string) :
  findById (List.filter (fun d => bool_decide (d.1 ≠ id)) coll) id = None.
Proof.
  unfold findById.
  induction coll as [|[i r] coll IH]; simpl; [done|].
  case_bool_decide as Hi; simpl; [|exact IH].
  rewrite bool_decide_eq_false_2 by done. exact IH.
Qed.

Lemma findById_map (coll : list (string * AttendanceDoc)) (id j : string)
    (new : AttendanceDoc) :
  findById (map (fun d => if bool_decide (d.1 = id) then (d.1, new) else d) coll) j
  = if bool_decide (j = id) then (fun _ => new) <$> findById coll id
    else findById coll j.
Proof.
  unfold findById.
  induction coll as [|[i r] coll IH]; simpl; [by case_bool_decide|].
  destruct (decide (i = id)) as [->|Hi].
  - rewrite (bool_decide_eq_true_2 (id = id)) by done. simpl.
    destruct (decide (id = j)) as [->|Hj].
    + by rewrite !bool_decide_eq_true_2.
    + rewrite (bool_decide_eq_false_2 (id = j)) by done.
      rewrite (bool_decide_eq_false_2 (j = id)) by done.
      rewrite (bool_decide_eq_false_2 (j = id)) in IH by done. exact IH.
  - rewrite (bool_decide_eq_false_2 (i = id)) by done. simpl.
    destruct (decide (i = j)) as [->|Hj].
    + rewrite (bool_decide_eq_true_2 (j = j)) by done.
      by rewrite (bool_decide_eq_false_2 (j = id)).
    + rewrite (bool_decide_eq_false_2 (i = j)) by done. exact IH.
Qed.

(** X21. [deleteAttendance] answers 404 for an unknown id and stores
    nothing; for a caller with role doctor it answers 403 for every
    existing record, the caller's own included, since the recorded doctor's
    id string is compared with the ObjectId in [req.user.id]; for any other
    role it removes the record with that id and leaves every other record
    as it is. *)
Theorem deleteAttendance_effect (coll : list (string * AttendanceDoc))
    (user : AttendanceController.Caller) (id : string) :
  (findById coll id = None ->
   deleteAttendance coll user id = (coll, mkResponse 404 "Attendance record not found"))
  /\ (is_Some (findById coll id) ->
      AttendanceController.role user = Account.doctor ->
      deleteAttendance coll user id
      = (coll, mkResponse 403 "Can only delete your own attendance records"))
  /\ (is_Some (findById coll id) ->
      AttendanceController.role user <> Account.doctor ->
      (deleteAttendance coll user id).2
        = mkResponse 200 "Attendance record deleted successfully"
      /\ findById (deleteAttendance coll user id).1 id = None
      /\ forall j, j ≠ id ->
           findById (deleteAttendance coll user id).1 j = findById coll j).
Proof.
  unfold deleteAttendance, notOwner. split; [by intros ->|]. split.
  - intros [r ->] Hrole. by rewrite (bool_decide_eq_true_2 _ Hrole).
  - intros [r ->] Hrole. rewrite (bool_decide_eq_false_2 _ Hrole). simpl.
    split; [done|]. split; [apply findById_filter_eq|].
    intros j Hj. by apply findById_filter_ne.
Qed.

(** X22. [updateAttendance] never adds or removes a record and never
    touches a record other than the addressed one; when it answers 200 the
    addressed record keeps its student, group, doctor, date and source and
    takes the requested status (or keeps its own when none is sent);
    otherwise nothing changes, and a caller with role doctor is never
    answered 200. *)
Theorem updateAttendance_effect (coll : list (string * AttendanceDoc))
    (user : AttendanceController.Caller) (id : string) (newStatus : option Status) :
  let coll' := (updateAttendance coll user id newStatus).1 in
  let resp := (updateAttendance coll user id newStatus).2 in
  map fst coll' = map fst coll
  /\ (forall j, j ≠ id -> findById coll' j = findById coll j)
  /\ (Http.status resp = 200 ->
      exists old,
        findById coll id = Some old
        /\ findById coll' id
           = Some (mkAttendance (student old) (group old) (doctor old) (lectureDate old)
                     (default (status old) newStatus) (recordedBy old)))
  /\ (Http.status resp <> 200 -> coll' = coll)
  /\ (AttendanceController.role user = Account.doctor -> Http.status resp <> 200).
Proof.
  cbv zeta. unfold updateAttendance, notOwner.
  destruct (findById coll id) as [old|] eqn:Hold; [|by repeat split].
  destruct (bool_decide (AttendanceController.role user = Account.doctor)) eqn:Hrole; simpl.
  { repeat split; try done. }
  apply bool_decide_eq_false_1 in Hrole.
  destruct (negb (indexed old) && _ && _); simpl; [by repeat split|].
  split.
  { rewrite map_map. apply map_ext. intros [i r]. simpl. by case_bool_decide. }
  split.
  { intros j Hj. rewrite findById_map. by rewrite bool_decide_eq_false_2. }
  split.
  { intros _. exists old. split; [done|]. rewrite findById_map, Hold.
    by rewrite bool_decide_eq_true_2. }
  split; [done|]. intros Hdoc. contradiction.
Qed.

End Editing.

(** ** Stores reached by recording *)

Section Reachable.
Import Js Http Attendance AttendanceController Session.

(** The two facts carried along a run. *)
Let sound (db : Store) : Prop :=
  Forall Spec.beforeLastSecond (attendance db)
  /\ Spec.oneNonAbsentPerDay (attendance db) = true.

Lemma guarded_save_sound (db db' : Store) (st gr dr : string) (date : Z)
    (sf : StatusField) (by_ : RecordedBy) (r : AttendanceDoc) :
  sound db -> date <= endOfDay date ->
  findOne (attendance db) st gr (startOfDay date) (endOfDay date) = None ->
  save db st gr dr date sf by_ = Return (db', r) ->
  sound db'.
Proof.
  intros [Hwin Hinv] Hdate Hnone Hsave.
  destruct (guarded_save_preserves _ _ _ _ _ _ _ _ _ Hwin Hinv Hnone Hsave)
    as (Hinv' & Hcoll & Hd).
  split; [|done]. rewrite Hcoll. apply Forall_app. split; [done|].
  apply Forall_singleton. unfold Spec.beforeLastSecond. by rewrite Hd.
Qed.

Lemma handle_sound (db : Store) (req : Request) :
  sound db -> stamp req <= endOfDay (stamp req) -> sound (handle db req).
Proof.
  intros Hs Hdate. destruct req as [now user body | user body | user body]; simpl in *.
  - unfold scanQRCode.
    destruct (qrData body); [|done].
    case_bool_decide; [done|].
    destruct (QRService.parseQRData _); [|done].
    destruct (QRService.validateQRCode _ _); [|done].
    destruct (_ ≫= _) as [[sid st]|]; [|done].
    destruct (negb (s_isActive st)); [done|].
    case_bool_decide; [done|].
    case_bool_decide; [done|].
    destruct (if bool_decide (role user = Account.doctor) then _ else _) as [[]|]; try done.
    destruct (findOne _ _ _ _ _) eqn:Hnone; [done|].
    destruct (save _ _ _ _ _ _ _) as [[db' r]|] eqn:Hsave; [|done].
    simpl. by eapply guarded_save_sound.
  - unfold recordAttendance.
    destruct (students db !! studentId body); [|done].
    case_bool_decide; [done|].
    destruct (if bool_decide (role user = Account.doctor) then _ else _) as [[]|]; try done.
    destruct (findOne _ _ _ _ _) eqn:Hnone; [done|].
    destruct (save _ _ _ _ _ _ _) as [[db' r]|] eqn:Hsave; [|done].
    simpl. by eapply guarded_save_sound.
  - unfold bulkRecordAttendance.
    destruct (attendanceList body) as [items|]; [|done].
    case_bool_decide; [done|].
    destruct (if bool_decide (role user = Account.doctor) then _ else _) as [[]|]; try done.
    assert (Hloop : forall acc : Store * BulkData,
              sound acc.1 ->
              sound (fold_left (bulkItem user (bulk_groupId body)
                                  (bulk_lectureDate body)) items acc).1).
    { induction items as [|item items IH]; intros [db0 out0] H0; [done|].
      cbn [fold_left]. apply IH. unfold bulkItem.
      destruct (findOne _ _ _ _ _) eqn:Hnone; [done|].
      destruct (save _ _ _ _ _ _ _) as [[db' r]|] eqn:Hsave; [|done].
      simpl. by eapply guarded_save_sound. }
    specialize (Hloop (db, {| successful := []; errors := [] |}) Hs).
    by destruct (fold_left _ items _).
Qed.

(** X23. Starting from an empty attendance collection, any sequence of
    scans, manual records and bulk calls whose dates are all stamped no
    later than 23:59:59.000 of their day reaches a store with at most one
    non-absent record per student, group and calendar day, in which every
    record is stamped no later than 23:59:59.000. *)
Theorem run_one_per_day (db : Store) (reqs : list Request) :
  attendance db = [] ->
  Forall (fun req => stamp req <= endOfDay (stamp req)) reqs ->
  Spec.oneNonAbsentPerDay (attendance (run db reqs)) = true
  /\ Forall Spec.beforeLastSecond (attendance (run db reqs)).
Proof.
  intros Hempty Hreqs.
  assert (Hs : sound db) by (split; rewrite Hempty; [constructor | done]).
  clear Hempty. unfold run. revert db Hs.
  induction Hreqs as [|req reqs Hreq _ IH]; intros db Hs; simpl.
  - destruct Hs. done.
  - apply IH. by apply handle_sound.
Qed.

End Reachable.

(** Worked instance: a scan, a repeated scan, a manual record the next
    day and a bulk call, all by [d1]. *)
Lemma run_one_per_day_witness :
  Spec.oneNonAbsentPerDay
    (Attendance.attendance
       (Session.run Sample.store
          [Session.Scan (Sample.day0 + 1000) Sample.d1 Sample.scanS1;
           Session.Scan (Sample.day0 + 2000) Sample.d1 Sample.scanS1;
           Session.Record Sample.d1
             (AttendanceController.mkRecordBody "s1" "g1" Attendance.late
                (Sample.day0 + 86400000));
           Session.Bulk Sample.d1
             (AttendanceController.mkBulkBody "g1" (Sample.day0 + 172800000)
                (Some [AttendanceController.mkBulkItem "s1" Attendance.Missing;
                       AttendanceController.mkBulkItem "s2"
                         (Attendance.Given Attendance.absent)]))])) = true.
Proof.
  apply run_one_per_day; [reflexivity|].
  repeat constructor; compute_done.
Defined.
